(** * Mineacraft_Controller: elbow angle, hysteretic classifier, control loop

    A shallow embedding of the Python sources

      - [src/models/enums.py], [src/models/data_models.py]
      - [src/utils/angle_calculator.py]
      - [src/controllers/pose_detector.py]
      - [src/controllers/mouse_controller.py]
      - [src/controllers/application_controller.py]

    Python [float] is IEEE 754 binary64 and is embedded as Rocq's primitive
    [float] (same format, round to nearest even), so that every comparison
    and every [+ - * /] that the source itself writes computes here bit for
    bit. The NumPy calls of [calculate_elbow_angle] are library code, and
    the last bit of [np.dot] (and so of [np.linalg.norm]) depends on how the
    library was built: [Np.dot] rounds every product and every sum, and
    [Np.dot_fma] accumulates with a fused multiply-add; the two can differ
    in the last place. [calculate_elbow_angle] is the source with [Np.dot];
    [calculate_elbow_angle_with] is the same source with the dot product as
    a parameter, and what is proved of the value of the angle is proved for
    every dot product, or for both of these.
    Coordinates, confidences and angles are Python floats, as the source
    annotates them. Python exceptions are embedded as the [Raise] branch of
    [result]; mutable objects are embedded as records threaded through the
    calls. *)

From Stdlib Require Import Bool List ZArith Lia Ascii String.
From Stdlib Require Import Floats.
Import ListNotations.

(** ** Exceptions *)

Inductive exn : Type :=
| ValueError
| MouseControlError
| PyAutoGUIException.

Inductive result (A : Type) : Type :=
| Return (a : A)
| Raise (e : exn).

Arguments Return {A} a.
Arguments Raise {A} e.

Definition bind {A B : Type} (r : result A) (k : A -> result B) : result B :=
  match r with
  | Return a => k a
  | Raise e => Raise e
  end.

Notation "x <- r ;; k" := (bind r (fun x => k))
  (at level 61, r at next level, right associativity).

(** ** models/enums.py *)

Inductive ControlState : Type :=
| NEUTRAL
| LEFT_CLICK
| RIGHT_CLICK.

Definition ControlState_eqb (a b : ControlState) : bool :=
  match a, b with
  | NEUTRAL, NEUTRAL | LEFT_CLICK, LEFT_CLICK | RIGHT_CLICK, RIGHT_CLICK => true
  | _, _ => false
  end.

(** ** models/data_models.py *)

Record Point : Type := mkPoint { x : float; y : float; z : float }.

(** [Point == Point] of a dataclass compares the field tuples, that is the
    coordinates with the float [==]. *)
Definition Point_eqb (p q : Point) : bool :=
  ((x p =? x q) && (y p =? y q) && (z p =? z q))%float.

(** [math.isfinite] on each coordinate: the spec's Point has finite
    coordinates. *)
Definition Point_finite (p : Point) : bool :=
  is_finite (x p) && is_finite (y p) && is_finite (z p).

(** Finiteness on the specification side of a binary64 number. *)
Definition SF_finite (f : spec_float) : bool :=
  match f with
  | S754_zero _ | S754_finite _ _ _ => true
  | _ => false
  end.

Record ArmKeypoints : Type := mkArmKeypoints {
  shoulder : Point;
  elbow : Point;
  wrist : Point;
  confidence : float
}.

(** The dataclass constructor with its [__post_init__]: the confidence has
    to satisfy [0.0 <= confidence <= 1.0], else [ValueError]. *)
Definition ArmKeypoints_new (s e w : Point) (c : float) : result ArmKeypoints :=
  if negb ((0.0 <=? c) && (c <=? 1.0))%float then Raise ValueError
  else Return (mkArmKeypoints s e w c).

Record SystemState : Type := mkSystemState {
  pose_control_enabled : bool;
  current_control_state : ControlState;
  last_valid_angle : option float;
  error_count : nat
}.

(** [SystemState()] with the dataclass defaults. *)
Definition SystemState_default : SystemState :=
  mkSystemState true NEUTRAL None 0.

(** ** NumPy on vectors of three binary64 numbers

    The calls of [calculate_elbow_angle] that are plain binary64 arithmetic.
    [np.linalg.norm] of a real vector is [sqrt (dot v v)] (no rescaling).
    [np.dot] goes to the BLAS of the platform, which accumulates from the
    first component to the last: [dot] rounds each product and each sum
    (a build without fused multiply-add), [dot_fma] rounds once per
    component (a build with it, starting from a zero accumulator). The two
    agree whenever the products and sums are exact, and can differ in the
    last place otherwise.
    [np.clip] is [min (max v lo) hi] and lets a NaN through. *)

Module Np.

Open Scope float_scope.

Definition vec3 : Type := float * float * float.

Definition array (a b c : float) : vec3 := (a, b, c).

Definition dot (u v : vec3) : float :=
  let '(u0, u1, u2) := u in
  let '(v0, v1, v2) := v in
  u0 * v0 + u1 * v1 + u2 * v2.

Definition norm (v : vec3) : float := PrimFloat.sqrt (dot v v).

Definition divide (v : vec3) (c : float) : vec3 :=
  let '(v0, v1, v2) := v in (v0 / c, v1 / c, v2 / c).

Definition clip (v lo hi : float) : float :=
  let m := if is_nan v || (lo <? v) then v else lo in
  if is_nan m || (m <? hi) then m else hi.

(** The fused multiply-add of IEEE 754, [x * y + z] with one rounding, on
    the specification side of binary64: the product of two finite numbers
    is kept exact (mantissa [mx * my], exponent [ex + ey]), aligned with
    [z] and rounded once. A product that is a zero, an infinity or a NaN
    is exact as [SFmul] gives it. *)
Definition SFfma (x y z : spec_float) : spec_float :=
  match x, y, z with
  | S754_finite sx mx ex, S754_finite sy my ey, S754_finite sz mz ez =>
      let ep := (ex + ey)%Z in
      let e := Z.min ep ez in
      binary_normalize prec emax
        (cond_Zopp (xorb sx sy) (Zpos (fst (shl_align (mx * my) ep e)))
         + cond_Zopp sz (Zpos (fst (shl_align mz ez e))))%Z
        e false
  | S754_finite _ _ _, S754_finite _ _ _, S754_zero _ => SFmul prec emax x y
  | S754_finite _ _ _, S754_finite _ _ _, _ => z
  | _, _, _ => SFadd prec emax (SFmul prec emax x y) z
  end.

Definition fma (x y z : float) : float :=
  SF2Prim (SFfma (Prim2SF x) (Prim2SF y) (Prim2SF z)).

Definition dot_fma (u v : vec3) : float :=
  let '(u0, u1, u2) := u in
  let '(v0, v1, v2) := v in
  fma u2 v2 (fma u1 v1 (fma u0 v0 0)).

(** The two builds of the library. *)
Definition blas_dot (fused : bool) : vec3 -> vec3 -> float :=
  if fused then dot_fma else dot.

End Np.

(** ** utils/angle_calculator.py: the state classifier *)

Module AngleCalculator.

Open Scope float_scope.

Definition RIGHT_CLICK_THRESHOLD : float := 60.0.
Definition LEFT_CLICK_THRESHOLD : float := 90.0.
Definition HYSTERESIS_MARGIN : float := 2.0.

(** The object's only attribute is [_last_state : Optional[ControlState]];
    [None] is the unset memory of [__init__]. *)
Definition t : Type := option ControlState.

Definition __init__ : t := None.

(** [self._last_state == ControlState.X]: an enum member is never equal
    to [None]. *)
Definition last_state_is (self : t) (s : ControlState) : bool :=
  match self with
  | Some s' => ControlState_eqb s' s
  | None => false
  end.

Definition right_threshold (self : t) : float :=
  if last_state_is self RIGHT_CLICK
  then RIGHT_CLICK_THRESHOLD + HYSTERESIS_MARGIN
  else RIGHT_CLICK_THRESHOLD.

Definition left_threshold (self : t) : float :=
  if last_state_is self LEFT_CLICK
  then LEFT_CLICK_THRESHOLD - HYSTERESIS_MARGIN
  else LEFT_CLICK_THRESHOLD.

(** [get_control_state]: returns the new state and the updated object. *)
Definition get_control_state (self : t) (angle : float) : ControlState * t :=
  let new_state :=
    if angle <? right_threshold self then RIGHT_CLICK
    else if left_threshold self <? angle then LEFT_CLICK
    else NEUTRAL in
  (new_state, Some new_state).

Definition is_angle_valid (angle : float) : bool :=
  (0.0 <=? angle) && (angle <=? 180.0).

Definition reset_state (self : t) : t := None.

(** A run of [get_control_state] over successive samples: the emitted
    states and the final memory. *)
Fixpoint classify_all (self : t) (angles : list float)
  : list ControlState * t :=
  match angles with
  | [] => ([], self)
  | a :: rest =>
      let '(s, self') := get_control_state self a in
      let '(ss, self'') := classify_all self' rest in
      (s :: ss, self'')
  end.

(** [calculate_elbow_angle]. [np.arccos] and [np.degrees] are library
    functions with no binary64 counterpart here; they are parameters. *)
Section ElbowAngle.

Variable arccos : float -> float.
Variable degrees : float -> float.

Definition upper_arm_of (shoulder elbow : Point) : Np.vec3 :=
  Np.array (x shoulder - x elbow) (y shoulder - y elbow) (z shoulder - z elbow).

Definition forearm_of (wrist elbow : Point) : Np.vec3 :=
  Np.array (x wrist - x elbow) (y wrist - y elbow) (z wrist - z elbow).

Definition calculate_elbow_angle (shoulder elbow wrist : Point)
  : result float :=
  let upper_arm := upper_arm_of shoulder elbow in
  let forearm := forearm_of wrist elbow in
  let upper_arm_length := Np.norm upper_arm in
  let forearm_length := Np.norm forearm in
  if (upper_arm_length =? 0) || (forearm_length =? 0) then
    Raise ValueError
  else
    let upper_arm_normalized := Np.divide upper_arm upper_arm_length in
    let forearm_normalized := Np.divide forearm forearm_length in
    let dot_product := Np.dot upper_arm_normalized forearm_normalized in
    let dot_product := Np.clip dot_product (-1.0) 1.0 in
    let angle_radians := arccos dot_product in
    let angle_degrees := degrees angle_radians in
    Return angle_degrees.

End ElbowAngle.

(** [calculate_elbow_angle] again, with [np.dot] a parameter as well:
    [np.linalg.norm] calls it on the vector with itself. *)
Section DotRoutine.

Variable dot : Np.vec3 -> Np.vec3 -> float.
Variable arccos : float -> float.
Variable degrees : float -> float.

Definition norm_with (v : Np.vec3) : float := PrimFloat.sqrt (dot v v).

Definition calculate_elbow_angle_with (shoulder elbow wrist : Point)
  : result float :=
  let upper_arm := upper_arm_of shoulder elbow in
  let forearm := forearm_of wrist elbow in
  let upper_arm_length := norm_with upper_arm in
  let forearm_length := norm_with forearm in
  if (upper_arm_length =? 0) || (forearm_length =? 0) then
    Raise ValueError
  else
    let upper_arm_normalized := Np.divide upper_arm upper_arm_length in
    let forearm_normalized := Np.divide forearm forearm_length in
    let dot_product := dot upper_arm_normalized forearm_normalized in
    let dot_product := Np.clip dot_product (-1.0) 1.0 in
    let angle_radians := arccos dot_product in
    let angle_degrees := degrees angle_radians in
    Return angle_degrees.

(** The test of line 53, the dot product of line 61 and its clamped value
    of line 64, as functions of the three points. *)
Definition zero_length (shoulder elbow wrist : Point) : bool :=
  (norm_with (upper_arm_of shoulder elbow) =? 0)
  || (norm_with (forearm_of wrist elbow) =? 0).

Definition dot_product_of (shoulder elbow wrist : Point) : float :=
  dot (Np.divide (upper_arm_of shoulder elbow)
                 (norm_with (upper_arm_of shoulder elbow)))
      (Np.divide (forearm_of wrist elbow)
                 (norm_with (forearm_of wrist elbow))).

Definition clamped_of (shoulder elbow wrist : Point) : float :=
  Np.clip (dot_product_of shoulder elbow wrist) (-1.0) 1.0.

End DotRoutine.

End AngleCalculator.


(** ** controllers/pose_detector.py *)

Module PoseDetector.

Open Scope float_scope.

(** A MediaPipe landmark: position and visibility. *)
Record Landmark : Type := mkLandmark {
  lm_x : float;
  lm_y : float;
  lm_z : float;
  visibility : float
}.

(** [PoseLandmarks(landmarks=...)]: a named tuple with the one field. *)
Definition PoseLandmarks : Type := list Landmark.

Definition LEFT_SHOULDER : nat := 11.
Definition LEFT_ELBOW : nat := 13.
Definition LEFT_WRIST : nat := 15.
Definition RIGHT_SHOULDER : nat := 12.
Definition RIGHT_ELBOW : nat := 14.
Definition RIGHT_WRIST : nat := 16.

Record t : Type := mk {
  confidence_threshold : float;
  model_complexity : Z
}.

Definition __init__ (confidence_threshold : float) (model_complexity : Z)
  : result t :=
  if negb ((0.0 <=? confidence_threshold) && (confidence_threshold <=? 1.0))
  then Raise ValueError
  else if negb ((model_complexity =? 0)%Z || (model_complexity =? 1)%Z
                || (model_complexity =? 2)%Z)
  then Raise ValueError
  else Return (mk confidence_threshold model_complexity).

(** Python's [min(a, b, c)]: the first argument is kept unless a later one
    is strictly smaller. *)
Definition min3 (a b c : float) : float :=
  let m := if b <? a then b else a in
  if c <? m then c else m.

Definition point_of (lm : Landmark) : Point :=
  mkPoint (lm_x lm) (lm_y lm) (lm_z lm).

Definition _extract_arm_keypoints (self : t) (landmarks : PoseLandmarks)
    (shoulder_idx elbow_idx wrist_idx : nat) : result (option ArmKeypoints) :=
  let landmark_list := landmarks in
  let max_idx := Nat.max (Nat.max shoulder_idx elbow_idx) wrist_idx in
  if Nat.leb (List.length landmark_list) max_idx then Return None
  else
    match nth_error landmark_list shoulder_idx,
          nth_error landmark_list elbow_idx,
          nth_error landmark_list wrist_idx with
    | Some shoulder_lm, Some elbow_lm, Some wrist_lm =>
        let min_confidence :=
          min3 (visibility shoulder_lm) (visibility elbow_lm)
               (visibility wrist_lm) in
        if min_confidence <? confidence_threshold self then Return None
        else
          kp <- ArmKeypoints_new (point_of shoulder_lm) (point_of elbow_lm)
                                 (point_of wrist_lm) min_confidence ;;
          Return (Some kp)
    | _, _, _ => Return None (* IndexError, caught *)
    end.

(** [arm and arm.confidence >= self.confidence_threshold] *)
Definition accepted (self : t) (arm : option ArmKeypoints) : bool :=
  match arm with
  | Some a => confidence_threshold self <=? confidence a
  | None => false
  end.

Definition get_arm_keypoints (self : t) (landmarks : PoseLandmarks)
  : result (option ArmKeypoints) :=
  match landmarks with
  | [] => Raise ValueError
  | _ :: _ =>
      left_arm <- _extract_arm_keypoints self landmarks
                    LEFT_SHOULDER LEFT_ELBOW LEFT_WRIST ;;
      if accepted self left_arm then Return left_arm
      else
        right_arm <- _extract_arm_keypoints self landmarks
                       RIGHT_SHOULDER RIGHT_ELBOW RIGHT_WRIST ;;
        if accepted self right_arm then Return right_arm
        else Return None
  end.

End PoseDetector.

(** ** The pointing device behind [pyautogui]

    Each [mouseUp]/[mouseDown] either is performed or raises; which one is
    the environment's choice, given as the list [faults] of the outcomes of
    the calls to come ([true]: the call raises; none left: it succeeds). *)

Module PyAutoGUI.

Inductive button : Type := left | right.

Inductive call : Type :=
| mouseUp (b : button)
| mouseDown (b : button).

Record t : Type := mk {
  performed : list call;   (* most recent first *)
  faults : list bool
}.

Definition invoke (c : call) (w : t) : result unit * t :=
  match faults w with
  | true :: rest => (Raise PyAutoGUIException, mk (performed w) rest)
  | false :: rest => (Return tt, mk (c :: performed w) rest)
  | [] => (Return tt, mk (c :: performed w) [])
  end.

End PyAutoGUI.

(** ** controllers/mouse_controller.py *)

Module MouseController.

Record t : Type := mk {
  _current_state : ControlState;
  _error_count : nat;
  _max_errors : nat
}.

Definition __init__ : t := mk NEUTRAL 0 5.

Definition _transition_to_state (self : t) (new_state : ControlState)
    (w : PyAutoGUI.t) : result unit * PyAutoGUI.t :=
  let '(r, w1) :=
    match _current_state self with
    | LEFT_CLICK => PyAutoGUI.invoke (PyAutoGUI.mouseUp PyAutoGUI.left) w
    | RIGHT_CLICK => PyAutoGUI.invoke (PyAutoGUI.mouseUp PyAutoGUI.right) w
    | NEUTRAL => (Return tt, w)
    end in
  match r with
  | Raise e => (Raise e, w1)
  | Return _ =>
      match new_state with
      | LEFT_CLICK => PyAutoGUI.invoke (PyAutoGUI.mouseDown PyAutoGUI.left) w1
      | RIGHT_CLICK => PyAutoGUI.invoke (PyAutoGUI.mouseDown PyAutoGUI.right) w1
      | NEUTRAL => (Return tt, w1)
      end
  end.

(** [set_state]: the outcome, the object and the device afterwards. The
    argument is a [ControlState] by typing, so the [isinstance] guard
    passes. *)
Definition set_state (self : t) (state : ControlState) (w : PyAutoGUI.t)
  : result unit * t * PyAutoGUI.t :=
  if ControlState_eqb state (_current_state self) then (Return tt, self, w)
  else
    match _transition_to_state self state w with
    | (Return _, w') =>
        (Return tt, mk state 0 (_max_errors self), w')
    | (Raise _, w') =>
        let self' := mk (_current_state self) (S (_error_count self))
                        (_max_errors self) in
        if Nat.leb (_max_errors self') (_error_count self')
        then (Raise MouseControlError, self', w')
        else (Return tt, self', w')
    end.

Definition release_all (self : t) (w : PyAutoGUI.t) : t * PyAutoGUI.t :=
  match PyAutoGUI.invoke (PyAutoGUI.mouseUp PyAutoGUI.left) w with
  | (Raise _, w1) => (self, w1)
  | (Return _, w1) =>
      match PyAutoGUI.invoke (PyAutoGUI.mouseUp PyAutoGUI.right) w1 with
      | (Raise _, w2) => (self, w2)
      | (Return _, w2) => (mk NEUTRAL 0 (_max_errors self), w2)
      end
  end.

Definition get_current_state (self : t) : ControlState := _current_state self.

Definition is_healthy (self : t) : bool :=
  Nat.ltb (_error_count self) (_max_errors self).

Definition reset_error_count (self : t) : t :=
  mk (_current_state self) 0 (_max_errors self).

End MouseController.

(** ** controllers/application_controller.py

    The controller owns the system state and its components; the module
    level [pyautogui] that the mouse controller drives is carried along as
    the field [device]. Camera and display do not touch any of this state:
    a frame is given by what [pose_detector.detect_pose] returns on it, and
    the display by the key it reports; its drawing calls are taken to
    return normally. *)

Module ApplicationController.

Record t : Type := mk {
  system_state : SystemState;
  pose_detector : PoseDetector.t;
  mouse_controller : MouseController.t;
  angle_calculator : AngleCalculator.t;
  _running : bool;
  device : PyAutoGUI.t
}.

Definition set_system_state (self : t) (s : SystemState) : t :=
  mk s (pose_detector self) (mouse_controller self) (angle_calculator self)
     (_running self) (device self).

Definition set_mouse (self : t) (m : MouseController.t) (w : PyAutoGUI.t) : t :=
  mk (system_state self) (pose_detector self) m (angle_calculator self)
     (_running self) w.

Definition set_angle_calculator (self : t) (a : AngleCalculator.t) : t :=
  mk (system_state self) (pose_detector self) (mouse_controller self) a
     (_running self) (device self).

(** The controller after a successful [initialize]. *)
Definition initialize (pd : PoseDetector.t) (w : PyAutoGUI.t) : t :=
  mk SystemState_default pd MouseController.__init__
     AngleCalculator.__init__ false w.

Definition stop (self : t) : t :=
  mk (system_state self) (pose_detector self) (mouse_controller self)
     (angle_calculator self) false (device self).

Definition toggle_pose_control (self : t) : t :=
  let st := system_state self in
  let enabled := negb (pose_control_enabled st) in
  let self1 :=
    set_system_state self
      (mkSystemState enabled (current_control_state st)
                     (last_valid_angle st) (error_count st)) in
  if negb enabled then
    let '(m, w) :=
      MouseController.release_all (mouse_controller self1) (device self1) in
    let self2 := set_mouse self1 m w in
    let st2 := system_state self2 in
    set_system_state self2
      (mkSystemState (pose_control_enabled st2) NEUTRAL
                     (last_valid_angle st2) (error_count st2))
  else self1.

Definition _update_mouse_control (self : t) (control_state : ControlState) : t :=
  let st := system_state self in
  match MouseController.set_state (mouse_controller self) control_state
                                  (device self) with
  | (Return _, m, w) =>
      set_system_state (set_mouse self m w)
        (mkSystemState (pose_control_enabled st) control_state
                       (last_valid_angle st) 0)
  | (Raise _, m, w) =>
      let n := S (error_count st) in
      set_system_state (set_mouse self m w)
        (mkSystemState
           (if Nat.ltb 5 n then false else pose_control_enabled st)
           (current_control_state st) (last_valid_angle st) n)
  end.

Definition _set_neutral_state (self : t) : t :=
  let st := system_state self in
  if negb (ControlState_eqb (current_control_state st) NEUTRAL) then
    match MouseController.set_state (mouse_controller self) NEUTRAL
                                    (device self) with
    | (Return _, m, w) =>
        set_system_state (set_mouse self m w)
          (mkSystemState (pose_control_enabled st) NEUTRAL
                         (last_valid_angle st) (error_count st))
    | (Raise _, m, w) => set_mouse self m w
    end
  else self.

Section Loop.

Variable arccos : float -> float.
Variable degrees : float -> float.

(** [_process_pose_detection], on the result [landmarks] of
    [detect_pose]. A [PoseLandmarks] tuple is truthy whatever it holds.
    The [ValueError] of [get_arm_keypoints] is raised outside the [try]
    and leaves the function. *)
Definition _process_pose_detection (self : t)
    (landmarks : option PoseDetector.PoseLandmarks) : result t :=
  match landmarks with
  | Some lms =>
      arm_keypoints <-
        PoseDetector.get_arm_keypoints (pose_detector self) lms ;;
      match arm_keypoints with
      | Some kp =>
          match AngleCalculator.calculate_elbow_angle arccos degrees
                  (shoulder kp) (elbow kp) (wrist kp) with
          | Return angle =>
              if AngleCalculator.is_angle_valid angle then
                let st := system_state self in
                let self1 :=
                  set_system_state self
                    (mkSystemState (pose_control_enabled st)
                       (current_control_state st) (Some angle)
                       (error_count st)) in
                let '(control_state, calc) :=
                  AngleCalculator.get_control_state
                    (angle_calculator self1) angle in
                let self2 := set_angle_calculator self1 calc in
                Return (_update_mouse_control self2 control_state)
              else Return self
          | Raise ValueError => Return (_set_neutral_state self)
          | Raise e => Raise e
          end
      | None => Return (_set_neutral_state self)
      end
  | None => Return (_set_neutral_state self)
  end.

(** [_process_frame], on the result [frame] of [camera.get_frame]:
    [None], or an image given by its detection result. *)
Definition _process_frame (self : t)
    (frame : option (option PoseDetector.PoseLandmarks)) : bool * t :=
  match frame with
  | None => (false, self)
  | Some detection =>
      if pose_control_enabled (system_state self) then
        match _process_pose_detection self detection with
        | Return self' => (true, self')
        | Raise _ => (false, self)
        end
      else (true, _set_neutral_state self)
  end.

(** [_handle_keyboard_input], on the key reported by the display. *)
Definition _handle_keyboard_input (self : t) (key : option string) : t :=
  match key with
  | None => self
  | Some k =>
      if (k =? "esc")%string || (k =? "q")%string then stop self
      else if (k =? "space")%string then toggle_pose_control self
      else if (k =? "r")%string then
        let st := system_state self in
        let self1 :=
          set_system_state self
            (mkSystemState true (current_control_state st)
                           (last_valid_angle st) 0) in
        set_mouse self1
          (MouseController.reset_error_count (mouse_controller self1))
          (device self1)
      else self
  end.

(** One turn of the [while self._running] loop of [run]. *)
Definition tick (self : t)
    (input : option (option PoseDetector.PoseLandmarks) * option string) : t :=
  let '(frame, key) := input in
  let '(_, self1) := _process_frame self frame in
  _handle_keyboard_input self1 key.

(** The loop, over the inputs of the successive turns, until [stop]. *)
Fixpoint loop (self : t)
    (inputs : list (option (option PoseDetector.PoseLandmarks)
                    * option string)) : t :=
  match inputs with
  | [] => self
  | i :: rest => if _running self then loop (tick self i) rest else self
  end.

Definition run (self : t)
    (inputs : list (option (option PoseDetector.PoseLandmarks)
                    * option string)) : t :=
  let self1 :=
    mk (system_state self) (pose_detector self) (mouse_controller self)
       (angle_calculator self) true (device self) in
  stop (loop self1 inputs).

(** A run of frames with no key pressed. *)
Fixpoint frames (self : t)
    (fs : list (option (option PoseDetector.PoseLandmarks))) : t :=
  match fs with
  | [] => self
  | f :: rest => frames (snd (_process_frame self f)) rest
  end.

End Loop.

(** The frames of section 4.3 of the spec: no pose detected, no arm above
    the confidence threshold, or an arm on which the angle computation
    raises. *)
Definition no_usable_keypoints (arccos degrees : float -> float)
    (pd : PoseDetector.t) (landmarks : option PoseDetector.PoseLandmarks)
  : bool :=
  match landmarks with
  | None => true
  | Some lms =>
      match PoseDetector.get_arm_keypoints pd lms with
      | Return None => true
      | Return (Some kp) =>
          match AngleCalculator.calculate_elbow_angle arccos degrees
                  (shoulder kp) (elbow kp) (wrist kp) with
          | Raise ValueError => true
          | _ => false
          end
      | Raise _ => false
      end
  end.

(** A frame of the camera is missing when the camera gives none or when it
    has no usable keypoints. *)
Definition missing (arccos degrees : float -> float) (self : t)
    (frame : option (option PoseDetector.PoseLandmarks)) : bool :=
  match frame with
  | None => true
  | Some landmarks =>
      no_usable_keypoints arccos degrees (pose_detector self) landmarks
  end.

(** The keys that can switch pose control back on. *)
Definition reenabling_key (key : option string) : bool :=
  match key with
  | Some k => (k =? "space")%string || (k =? "r")%string
  | None => false
  end.

(** [k] calls of [_update_mouse_control], and whether each of them found
    [set_state] raising. *)
Fixpoint updates (self : t) (cs : list ControlState) : t :=
  match cs with
  | [] => self
  | c :: rest => updates (_update_mouse_control self c) rest
  end.

Definition set_state_raises (self : t) (c : ControlState) : bool :=
  match MouseController.set_state (mouse_controller self) c (device self) with
  | (Raise _, _, _) => true
  | (Return _, _, _) => false
  end.

Fixpoint all_raise (self : t) (cs : list ControlState) : bool :=
  match cs with
  | [] => true
  | c :: rest =>
      set_state_raises self c && all_raise (_update_mouse_control self c) rest
  end.

End ApplicationController.

(** * The spec's wording of the classifier (section 4.2)

    Written from the spec, to be compared with [get_control_state]. *)

Module ClassifierSpec.

Open Scope float_scope.

Definition effective_right_threshold (lastState : option ControlState) : float :=
  match lastState with
  | Some RIGHT_CLICK => 62.0
  | _ => 60.0
  end.

Definition effective_left_threshold (lastState : option ControlState) : float :=
  match lastState with
  | Some LEFT_CLICK => 88.0
  | _ => 90.0
  end.

Definition classify (lastState : option ControlState) (angle : float)
  : ControlState :=
  if angle <? effective_right_threshold lastState then RIGHT_CLICK
  else if effective_left_threshold lastState <? angle then LEFT_CLICK
  else NEUTRAL.

End ClassifierSpec.

(** * The spec's wording of the arm selection (sections 3 and 6)

    Written from the spec, to be compared with [get_arm_keypoints]. *)

Module ArmSpec.

Import PoseDetector.
Open Scope float_scope.

(** The three landmarks of an arm, when the list holds all three indices. *)
Definition arm_landmarks (lms : PoseLandmarks) (si ei wi : nat)
  : option (Landmark * Landmark * Landmark) :=
  match nth_error lms si, nth_error lms ei, nth_error lms wi with
  | Some s, Some e, Some w => Some (s, e, w)
  | _, _, _ => None
  end.

(** The minimum per-point confidence among the three. *)
Definition arm_confidence (arm : Landmark * Landmark * Landmark) : float :=
  let '(s, e, w) := arm in min3 (visibility s) (visibility e) (visibility w).

Definition arm_keypoints (arm : Landmark * Landmark * Landmark) : ArmKeypoints :=
  let '(s, e, w) := arm in
  mkArmKeypoints (point_of s) (point_of e) (point_of w) (arm_confidence arm).

(** The arm, when its confidence is at least the threshold. *)
Definition usable_arm (threshold : float) (lms : PoseLandmarks)
    (si ei wi : nat) : option ArmKeypoints :=
  match arm_landmarks lms si ei wi with
  | Some arm =>
      if threshold <=? arm_confidence arm then Some (arm_keypoints arm)
      else None
  | None => None
  end.

(** Left arm first, right arm as the fallback, else nothing. *)
Definition select_arm (threshold : float) (lms : PoseLandmarks)
  : option ArmKeypoints :=
  match usable_arm threshold lms LEFT_SHOULDER LEFT_ELBOW LEFT_WRIST with
  | Some arm => Some arm
  | None => usable_arm threshold lms RIGHT_SHOULDER RIGHT_ELBOW RIGHT_WRIST
  end.

(** The data model's invariant on a per-point confidence. *)
Definition confidence_ok (lm : Landmark) : bool :=
  (0 <=? visibility lm) && (visibility lm <=? 1).

End ArmSpec.

(** * Sample inputs *)

Module Samples.

Open Scope float_scope.

(** Python's [1e-200]: the binary64 number nearest to it. Its square is
    below the smallest positive binary64 number. *)
Definition tiny : float := 0x1.87e92154ef7acp-665.

(** Python's [2.0 ** 1023]; twice this number is beyond the largest
    binary64 number. *)
Definition huge : float := 0x1p1023.

Definition origin : Point := mkPoint 0 0 0.

(** A full set of 33 landmarks, all seen with confidence 0.9375. *)
Definition seen : PoseDetector.PoseLandmarks :=
  repeat (PoseDetector.mkLandmark 0.5 0.5 0 0.9375) 33.

(** The detector of [ApplicationController.__init__]'s defaults. *)
Definition detector : PoseDetector.t := PoseDetector.mk 0.5 1.

(** 33 landmarks with the left shoulder, elbow and wrist on a line, at
    [(0,0,0)], [(1,0,0)] and [(2,0,0)]: a straight left arm. *)
Definition straight_arm : PoseDetector.PoseLandmarks :=
  map (fun i : nat =>
         PoseDetector.mkLandmark
           (if Nat.eqb i 13 then 1 else if Nat.eqb i 15 then 2 else 0)
           0 0 0.9375)
      (seq 0 33).

(** A pointing device on which the first call succeeds and the five after
    it raise. *)
Definition failing_device : PyAutoGUI.t :=
  PyAutoGUI.mk [] [false; true; true; true; true; true].

(** Nine frames: the straight arm, alternating with images without a
    pose. *)
Definition flicker : list (option (option PoseDetector.PoseLandmarks)) :=
  [Some (Some straight_arm); Some None; Some (Some straight_arm); Some None;
   Some (Some straight_arm); Some None; Some (Some straight_arm); Some None;
   Some (Some straight_arm)].

(** The controller after these nine frames (see [flicker_reaches]): the
    left button is held, four releases have failed. *)
Definition before_dropout : ApplicationController.t :=
  ApplicationController.mk
    (mkSystemState true LEFT_CLICK (Some 180) 0)
    detector
    (MouseController.mk LEFT_CLICK 4 5)
    (Some LEFT_CLICK)
    false
    (PyAutoGUI.mk [PyAutoGUI.mouseDown PyAutoGUI.left] [true]).

(** A controller holding the left button, in front of a sound device. *)
Definition holding_left : ApplicationController.t :=
  ApplicationController.mk
    (mkSystemState true LEFT_CLICK (Some 180) 0)
    detector
    (MouseController.mk LEFT_CLICK 0 5)
    (Some LEFT_CLICK)
    true
    (PyAutoGUI.mk [PyAutoGUI.mouseDown PyAutoGUI.left] []).

(** 33 landmarks with the left wrist back on the left shoulder, at
    [(2,0,0)], and the elbow at [(1,0,0)]: a left arm folded flat. *)
Definition folded_arm : PoseDetector.PoseLandmarks :=
  map (fun i : nat =>
         PoseDetector.mkLandmark
           (if Nat.eqb i 13 then 1 else 2) 0 0 0.9375)
      (seq 0 33).

(** A pointing device on which the next ten calls raise. *)
Definition broken_device : PyAutoGUI.t :=
  PyAutoGUI.mk [] (repeat true 10).

(** Eleven frames with the folded arm. *)
Definition folded : list (option (option PoseDetector.PoseLandmarks)) :=
  repeat (Some (Some folded_arm)) 11.

(** The controller after these eleven frames on the broken device (see
    [folded_reaches]): pose control went off with the sixth raising
    command, and the classifier's last state is the right press. *)
Definition switched_off : ApplicationController.t :=
  ApplicationController.mk
    (mkSystemState false NEUTRAL (Some 0) 6)
    detector
    (MouseController.mk NEUTRAL 10 5)
    (Some RIGHT_CLICK)
    false
    (PyAutoGUI.mk [] []).

(** A controller whose mouse controller has swallowed four failures, in
    front of a device that keeps failing. *)
Definition failing : ApplicationController.t :=
  ApplicationController.mk
    (mkSystemState true NEUTRAL (Some 180) 0)
    detector
    (MouseController.mk NEUTRAL 4 5)
    (Some LEFT_CLICK)
    true
    (PyAutoGUI.mk [] [true; true; true; true; true; true]).

End Samples.

(** * Further parts of the sources *)

(** ** controllers/display_manager.py: the keyboard *)

Module DisplayManager.

Open Scope Z_scope.

Definition ord (c : Ascii.ascii) : Z := Z.of_N (Ascii.N_of_ascii c).

Definition chr (key : Z) : string :=
  String (Ascii.ascii_of_N (Z.to_N key)) EmptyString.

(** [handle_key_input], on the value [raw] that [cv2.waitKey(1)] returns
    ([-1] when no key is pressed). *)
Definition handle_key_input (raw : Z) : option string :=
  let key := Z.land raw 255 in
  if key =? 255 then None
  else if key =? 27 then Some "esc"%string
  else if key =? ord " "%char then Some "space"%string
  else if key =? ord "q"%char then Some "q"%string
  else if (32 <=? key) && (key <=? 126) then Some (chr key)
  else None.

End DisplayManager.

(** ** controllers/camera_manager.py

    The capture device is the environment: [opens] gives the outcome of the
    calls [cv2.VideoCapture(camera_id)] to come ([None]: the call raises;
    [Some b]: a capture object whose [isOpened()] is [b]), and [reads] the
    outcome of the calls [cap.read()] to come ([None]: the call raises;
    [Some None]: no frame; [Some (Some f)]: the frame [f]). When a list is
    used up the camera does not open and gives no frame. [cap.set] and
    [cap.release] leave the manager's own state alone whatever they do. *)

Module CameraManager.

Section Frames.

Variable Frame : Type.

Record Cv2 : Type := mkCv2 {
  opens : list (option bool);
  reads : list (option (option Frame))
}.

Record t : Type := mk {
  cap : option bool;          (* the capture object, by its [isOpened()] *)
  _is_initialized : bool
}.

Definition __init__ : t := mk None false.

Definition release (self : t) : t := mk None false.

Definition read (w : Cv2) : option (option Frame) * Cv2 :=
  match reads w with
  | [] => (Some None, w)
  | r :: rest => (r, mkCv2 (opens w) rest)
  end.

Definition start_capture (self : t) (w : Cv2) : bool * t * Cv2 :=
  match opens w with
  | [] => (false, mk (Some false) (_is_initialized self), w)
  | None :: rest => (false, release self, mkCv2 rest (reads w))
  | Some false :: rest =>
      (false, mk (Some false) (_is_initialized self), mkCv2 rest (reads w))
  | Some true :: rest =>
      let self1 := mk (Some true) (_is_initialized self) in
      match read (mkCv2 rest (reads w)) with
      | (Some (Some _), w') => (true, mk (Some true) true, w')
      | (Some None, w') => (false, release self1, w')
      | (None, w') => (false, release self1, w')
      end
  end.

Definition get_frame (self : t) (w : Cv2) : option Frame * Cv2 :=
  if negb (_is_initialized self) then (None, w)
  else
    match cap self with
    | None => (None, w)
    | Some _ =>
        match read w with
        | (Some (Some f), w') => (Some f, w')
        | (Some None, w') => (None, w')
        | (None, w') => (None, w')
        end
    end.

Definition is_available (self : t) : bool :=
  if negb (_is_initialized self) then false
  else
    match cap self with
    | None => false
    | Some b => b
    end.

Definition reconnect (self : t) (w : Cv2) : bool * t * Cv2 :=
  start_capture (release self) w.

(** [ApplicationController._handle_frame_error], which only touches the
    camera manager: whether the loop goes on. *)
Definition _handle_frame_error (self : t) (w : Cv2) : bool * t * Cv2 :=
  if negb (is_available self) then reconnect self w
  else (true, self, w).

End Frames.

Arguments mkCv2 {Frame} opens reads.
Arguments opens {Frame} c.
Arguments reads {Frame} c.
Arguments read {Frame} w.
Arguments start_capture {Frame} self w.
Arguments get_frame {Frame} self w.
Arguments reconnect {Frame} self w.
Arguments _handle_frame_error {Frame} self w.

End CameraManager.

(** ** The buttons of the pointing device

    A button is down when the last call performed on it is a
    [mouseDown]. *)

Module Device.

Import PyAutoGUI.

Definition button_eqb (a b : button) : bool :=
  match a, b with
  | left, left | right, right => true
  | _, _ => false
  end.

Fixpoint pressed (b : button) (log : list call) : bool :=
  match log with
  | [] => false
  | mouseDown b' :: rest => if button_eqb b b' then true else pressed b rest
  | mouseUp b' :: rest => if button_eqb b b' then false else pressed b rest
  end.

(** The button that a state of the mouse controller stands for. *)
Definition holds (s : ControlState) (b : button) : bool :=
  match s, b with
  | LEFT_CLICK, left | RIGHT_CLICK, right => true
  | _, _ => false
  end.

(** No button is down that the mouse controller does not know of. *)
Definition consistent (mc : MouseController.t) (w : PyAutoGUI.t) : bool :=
  implb (pressed left (performed w)) (holds (MouseController._current_state mc) left)
  && implb (pressed right (performed w))
           (holds (MouseController._current_state mc) right).

(** The buttons down are exactly the one the mouse controller knows of. *)
Definition in_sync (mc : MouseController.t) (w : PyAutoGUI.t) : bool :=
  Bool.eqb (pressed left (performed w)) (holds (MouseController._current_state mc) left)
  && Bool.eqb (pressed right (performed w))
              (holds (MouseController._current_state mc) right).

(** The calls a client can make on a mouse controller, and a run of them. *)
Inductive command : Type :=
| do_set_state (s : ControlState)
| do_release_all
| do_reset_error_count.

Definition step (c : command) (st : MouseController.t * PyAutoGUI.t)
  : MouseController.t * PyAutoGUI.t :=
  let '(mc, w) := st in
  match c with
  | do_set_state s =>
      let '(_, mc', w') := MouseController.set_state mc s w in (mc', w')
  | do_release_all => MouseController.release_all mc w
  | do_reset_error_count => (MouseController.reset_error_count mc, w)
  end.

Fixpoint steps (cs : list command) (st : MouseController.t * PyAutoGUI.t)
  : MouseController.t * PyAutoGUI.t :=
  match cs with
  | [] => st
  | c :: rest => steps rest (step c st)
  end.

(** The outcomes of a run of [set_state] calls. *)
Fixpoint set_states (mc : MouseController.t) (w : PyAutoGUI.t)
    (cs : list ControlState) : list (result unit) :=
  match cs with
  | [] => []
  | s :: rest =>
      let '(r, mc', w') := MouseController.set_state mc s w in
      r :: set_states mc' w' rest
  end.

End Device.

(** ** More of controllers/application_controller.py *)

Module Lifecycle.

Import ApplicationController.

(** [cleanup], as far as the mouse and the system state go: the buttons
    are released, then the system state is replaced by a fresh one. *)
Definition cleanup (self : t) : t :=
  let '(m, w) :=
    MouseController.release_all (mouse_controller self) (device self) in
  set_system_state (set_mouse self m w) SystemState_default.

(** The key handling of one turn, from the raw key code of the display. *)
Definition on_key_code (self : t) (raw : Z) : t :=
  _handle_keyboard_input self (DisplayManager.handle_key_input raw).

(** The mouse controller and the device of [self'] are those of [self]
    after the calls [cs]. *)
Definition drives (self self' : t) (cs : list Device.command) : Prop :=
  (mouse_controller self', device self')
  = Device.steps cs (mouse_controller self, device self).

(** What a key makes the loop do. *)
Inductive action : Type :=
| quit
| toggle
| reset
| nothing.

Definition action_of_key (key : option string) : action :=
  match key with
  | None => nothing
  | Some k =>
      if (k =? "esc")%string || (k =? "q")%string then quit
      else if (k =? "space")%string then toggle
      else if (k =? "r")%string then reset
      else nothing
  end.

(** The same, read from the low byte of the raw key code. *)
Definition action_of_code (raw : Z) : action :=
  let key := Z.land raw 255 in
  if ((key =? 27) || (key =? 113))%Z then quit
  else if (key =? 32)%Z then toggle
  else if (key =? 114)%Z then reset
  else nothing.

Definition perform (self : t) (a : action) : t :=
  match a with
  | quit => stop self
  | toggle => toggle_pose_control self
  | reset => _handle_keyboard_input self (Some "r"%string)
  | nothing => self
  end.

(** The images on which an enabled loop does nothing: those on which
    [get_arm_keypoints] raises, and those whose angle is not valid. *)
Definition ignored (arccos degrees : float -> float) (pd : PoseDetector.t)
    (landmarks : option PoseDetector.PoseLandmarks) : bool :=
  match landmarks with
  | None => false
  | Some lms =>
      match PoseDetector.get_arm_keypoints pd lms with
      | Raise _ => true
      | Return None => false
      | Return (Some kp) =>
          match AngleCalculator.calculate_elbow_angle arccos degrees
                  (shoulder kp) (elbow kp) (wrist kp) with
          | Return angle => negb (AngleCalculator.is_angle_valid angle)
          | Raise _ => false
          end
      end
  end.

(** A controller in step with a device that does not fail: no failure is
    in store or counted, the loop's state is the mouse controller's, and the
    buttons down are exactly the one this state stands for. *)
Definition sound (self : t) : bool :=
  match PyAutoGUI.faults (device self) with [] => true | _ :: _ => false end
  && Nat.eqb (MouseController._error_count (mouse_controller self)) 0
  && Nat.eqb (error_count (system_state self)) 0
  && ControlState_eqb (current_control_state (system_state self))
       (MouseController._current_state (mouse_controller self))
  && Device.in_sync (mouse_controller self) (device self).

End Lifecycle.

(** ** Further sample inputs *)

Module MoreSamples.

Open Scope float_scope.

(** The landmarks [seen], with the visibility of the left shoulder
    (index 11) replaced by a NaN. *)
Definition shoulder_unseen : PoseDetector.PoseLandmarks :=
  map (fun i : nat =>
         PoseDetector.mkLandmark 0.5 0.5 0
           (if Nat.eqb i 11 then nan else 0.9375))
      (seq 0 33).

(** Fifteen landmarks: too few for either arm. *)
Definition fifteen : PoseDetector.PoseLandmarks :=
  repeat (PoseDetector.mkLandmark 0.5 0.5 0 0.9375) 15.

(** 33 landmarks with the left arm straight, seen at 0.75 at the shoulder,
    0.5 at the elbow and 0.625 at the wrist. *)
Definition unevenly_seen : PoseDetector.PoseLandmarks :=
  map (fun i : nat =>
         PoseDetector.mkLandmark
           (if Nat.eqb i 13 then 1 else if Nat.eqb i 15 then 2 else 0) 0 0
           (if Nat.eqb i 11 then 0.75 else if Nat.eqb i 13 then 0.5
            else 0.625))
      (seq 0 33).

End MoreSamples.


(** ** What is asked of [np.arccos] and [np.degrees]

    The two library functions are parameters. Three facts about them are
    used, each true of the correctly rounded arccosine followed by the
    multiplication by [180 / pi]: on [[-1, 1]] the result lies in
    [[0, 180]]; within [2^-40] of [0] it is within [1e-3] of [90]; within
    [2^-40] of [-1] it is within [1e-3] of [180]. *)

Module Library.

Open Scope float_scope.

(** [1e-3], as Python reads it. *)
Definition tolerance : float := 0x1.0624dd2f1a9fcp-10.

Definition close_to (target angle : float) : bool :=
  (target - tolerance <=? angle) && (angle <=? target + tolerance).

Definition slack : float := 0x1p-40.

Definition accurate (arccos degrees : float -> float) : Prop :=
  (forall c : float,
      (-1 <=? c) = true -> (c <=? 1) = true ->
      AngleCalculator.is_angle_valid (degrees (arccos c)) = true)
  /\ (forall c : float,
        (- slack <=? c) = true -> (c <=? slack) = true ->
        close_to 90 (degrees (arccos c)) = true)
  /\ (forall c : float,
        (-1 <=? c) = true -> (c <=? -1 + slack) = true ->
        close_to 180 (degrees (arccos c)) = true).

(** A stand-in with these three properties: the arccosine in degrees
    rounded to a multiple of 90, and the identity. *)
Definition arccos_by_quadrant (c : float) : float :=
  if c <? -0.5 then 180 else if c <? 0.5 then 90 else 0.

Definition degrees_done (r : float) : float := r.

End Library.

(** ** Arms on a lattice

    Points with small integer coordinates, on which a right angle and a
    straight arm are decided in integer arithmetic, and their images in
    binary64; and points scaled by a power of two. *)

Module Lattice.

Definition zpoint : Type := (Z * Z * Z)%type.

Definition zsub (p q : zpoint) : zpoint :=
  let '(a, b, c) := p in
  let '(a', b', c') := q in
  (a - a', b - b', c - c')%Z.

Definition zdot (p q : zpoint) : Z :=
  let '(a, b, c) := p in
  let '(a', b', c') := q in
  (a * a' + b * b' + c * c')%Z.

Definition zcross (p q : zpoint) : zpoint :=
  let '(a, b, c) := p in
  let '(a', b', c') := q in
  (b * c' - c * b', c * a' - a * c', a * b' - b * a')%Z.

Definition zzero (p : zpoint) : bool :=
  let '(a, b, c) := p in
  (a =? 0)%Z && (b =? 0)%Z && (c =? 0)%Z.

(** The two arms are not null and are perpendicular. *)
Definition right_angle (s e w : zpoint) : bool :=
  negb (zzero (zsub s e)) && negb (zzero (zsub w e))
  && (zdot (zsub s e) (zsub w e) =? 0)%Z.

(** The three points are collinear, the elbow strictly between the
    shoulder and the wrist. *)
Definition straight (s e w : zpoint) : bool :=
  zzero (zcross (zsub s e) (zsub w e))
  && (zdot (zsub s e) (zsub w e) <? 0)%Z.

Definition within (n : Z) (p : zpoint) : bool :=
  let '(a, b, c) := p in
  (Z.abs a <=? n)%Z && (Z.abs b <=? n)%Z && (Z.abs c <=? n)%Z.

Definition float_of_Z (a : Z) : float :=
  match a with
  | Z0 => 0%float
  | Zpos _ => of_uint63 (Uint63.of_Z a)
  | Zneg p => (- of_uint63 (Uint63.of_Z (Zpos p)))%float
  end.

Definition point_of (p : zpoint) : Point :=
  let '(a, b, c) := p in
  mkPoint (float_of_Z a) (float_of_Z b) (float_of_Z c).

(** [p] with every coordinate multiplied by [2^k]. *)
Definition scaled (k : Z) (p : Point) : Point :=
  mkPoint (Z.ldexp (x p) k) (Z.ldexp (y p) k) (Z.ldexp (z p) k).

(** Enumerations, for the proofs by evaluation. *)
Definition range (lo : Z) (n : nat) : list Z :=
  map (fun i : nat => (lo + Z.of_nat i)%Z) (seq 0 n).

Definition coordinates (n : Z) : list Z := range (- n) (Z.to_nat (2 * n + 1)).

Definition points (n : Z) : list zpoint :=
  flat_map (fun a =>
    flat_map (fun b => map (fun c => (a, b, c)) (coordinates n))
             (coordinates n))
    (coordinates n).

(** With either build of the library an angle is returned on the three
    points, and the clamped dot product is within [slack] of [target]. *)
Definition cosine_near (target : float) (s e w : Point) : bool :=
  forallb (fun fused : bool =>
             negb (AngleCalculator.zero_length (Np.blas_dot fused) s e w)
             && (target - Library.slack
                 <=? AngleCalculator.clamped_of (Np.blas_dot fused) s e w)%float
             && (AngleCalculator.clamped_of (Np.blas_dot fused) s e w
                 <=? target + Library.slack)%float)
          [false; true].

End Lattice.

(** ** Arms of extreme size *)

Module Extremes.

Open Scope float_scope.

(** [2^600]: its square is not a binary64 number. *)
Definition large : float := 0x1p+600.

(** About [2.6 * 2^-537]: its square is a subnormal number of three bits. *)
Definition small : float := 0x1.4cccccccccccdp-536.

End Extremes.

(** ** An order on the control states, by the angle they stand for *)

Definition rank (s : ControlState) : nat :=
  match s with
  | RIGHT_CLICK => 0
  | NEUTRAL => 1
  | LEFT_CLICK => 2
  end.

(** * Facts about the enumeration *)

Lemma ControlState_eqb_spec (a b : ControlState) :
  reflect (a = b) (ControlState_eqb a b).
Proof. destruct a, b; constructor; congruence. Qed.

Lemma ControlState_eqb_refl (a : ControlState) : ControlState_eqb a a = true.
Proof. now destruct a. Qed.

(** * Facts about binary64 comparison and subtraction

    Derived from the specification of the primitive operations
    ([FloatAxioms]) over [SpecFloat]. *)

Module FloatFacts.

Lemma SFcompare_antisym a b c :
  SFcompare a b = Some c -> SFcompare b a = Some (CompOpp c).
Proof.
  destruct a as [sa|sa| |sa ma ea], b as [sb|sb| |sb mb eb]; simpl;
    intros H; try discriminate; injection H as <-;
    try (destruct sa; reflexivity); try (destruct sb; reflexivity);
    try (destruct sa, sb; reflexivity).
  destruct sa, sb; try reflexivity;
    rewrite (Z.compare_antisym ea eb);
    destruct (ea ?= eb)%Z; simpl; try reflexivity;
    change (Pos.compare_cont Eq mb ma) with (Pos.compare mb ma);
    change (Pos.compare_cont Eq ma mb) with (Pos.compare ma mb);
    rewrite (Pos.compare_antisym ma mb);
    destruct (Pos.compare ma mb); reflexivity.
Qed.

(** [a <= b] excludes [b < a]. *)
Lemma leb_ltb_false (a b : float) :
  (a <=? b)%float = true -> (b <? a)%float = false.
Proof.
  rewrite leb_spec, ltb_spec. unfold SFleb, SFltb.
  destruct (SFcompare (Prim2SF a) (Prim2SF b)) as [c|] eqn:E; try discriminate.
  rewrite (SFcompare_antisym _ _ _ E). destruct c; simpl; congruence.
Qed.

Lemma is_finite_SF (a : float) :
  is_finite a = true -> SF_finite (Prim2SF a) = true.
Proof.
  unfold is_finite, is_nan, is_infinity.
  rewrite !eqb_spec, abs_spec.
  change (Prim2SF infinity) with (S754_infinity false).
  destruct (Prim2SF a) as [s|s| |s m e]; intros H; try reflexivity;
    [destruct s|]; vm_compute in H; discriminate.
Qed.

Lemma SFeqb_finite_inv s1 m1 e1 s2 m2 e2 :
  SFeqb (S754_finite s1 m1 e1) (S754_finite s2 m2 e2) = true ->
  s1 = s2 /\ m1 = m2 /\ e1 = e2.
Proof.
  unfold SFeqb; simpl.
  destruct s1, s2; try discriminate;
    destruct (e1 ?= e2)%Z eqn:E; try discriminate;
    apply Z.compare_eq in E; subst;
    destruct (Pos.compare_cont Eq m1 m2) eqn:M; try discriminate;
    apply Pos.compare_eq in M; subst; auto.
Qed.

(** Numbers that are [==] compare alike with any third one. *)
Lemma SFcompare_eqb_l a b c :
  SFeqb a b = true -> SFcompare a c = SFcompare b c.
Proof.
  destruct a as [sa|sa| |sa ma ea], b as [sb|sb| |sb mb eb]; intros H;
    try (cbn in H; discriminate H);
    try (destruct sa; cbn in H; discriminate H);
    try (destruct sb; cbn in H; discriminate H).
  - destruct c; reflexivity.
  - destruct sa, sb; try (cbn in H; discriminate H); reflexivity.
  - apply SFeqb_finite_inv in H as (-> & -> & ->). reflexivity.
Qed.

Lemma SFcompare_eqb_r a b c :
  SFeqb a b = true -> SFcompare c a = SFcompare c b.
Proof.
  destruct a as [sa|sa| |sa ma ea], b as [sb|sb| |sb mb eb]; intros H;
    try (cbn in H; discriminate H);
    try (destruct sa; cbn in H; discriminate H);
    try (destruct sb; cbn in H; discriminate H).
  - destruct c; reflexivity.
  - destruct sa, sb; try (cbn in H; discriminate H); reflexivity.
  - apply SFeqb_finite_inv in H as (-> & -> & ->). reflexivity.
Qed.

Lemma ltb_eqb_l (a b c : float) :
  (a =? b)%float = true -> (a <? c)%float = (b <? c)%float.
Proof.
  rewrite eqb_spec, !ltb_spec. unfold SFltb. intros H.
  now rewrite (SFcompare_eqb_l _ _ _ H).
Qed.

Lemma ltb_eqb_r (a b c : float) :
  (a =? b)%float = true -> (c <? a)%float = (c <? b)%float.
Proof.
  rewrite eqb_spec, !ltb_spec. unfold SFltb. intros H.
  now rewrite (SFcompare_eqb_r _ _ _ H).
Qed.

(** The difference of two finite numbers that are [==] is a zero. *)
Lemma sub_eq_zero (a b : float) :
  is_finite a = true -> (a =? b)%float = true ->
  (a - b = 0 \/ a - b = -0)%float.
Proof.
  intros Hf He. apply is_finite_SF in Hf.
  rewrite eqb_spec in He.
  rewrite <- (SF2Prim_Prim2SF (a - b)), sub_spec.
  revert Hf He.
  destruct (Prim2SF a) as [sa|sa| |sa ma ea];
    destruct (Prim2SF b) as [sb|sb| |sb mb eb]; intros Hf He;
    try (cbn in Hf; discriminate Hf);
    try (destruct sa; cbn in He; discriminate He);
    try (destruct sb; cbn in He; discriminate He);
    try (cbn in He; discriminate He).
  - destruct sa, sb; [left|right|left|left]; reflexivity.
  - apply SFeqb_finite_inv in He as (-> & -> & ->). left.
    unfold SF64sub, SFsub. rewrite Z.sub_diag. reflexivity.
Qed.

(** A vector of zeros, whatever their signs, has norm zero. *)
Lemma norm_of_zeros (a b c : float) :
  (a = 0 \/ a = -0)%float -> (b = 0 \/ b = -0)%float ->
  (c = 0 \/ c = -0)%float ->
  (Np.norm (Np.array a b c) =? 0)%float = true.
Proof. intros [-> | ->] [-> | ->] [-> | ->]; reflexivity. Qed.

End FloatFacts.

(** * The state classifier *)

Module ClassifierFacts.

Import AngleCalculator.
Open Scope float_scope.

Lemma right_threshold_value (self : t) :
  right_threshold self = ClassifierSpec.effective_right_threshold self.
Proof. destruct self as [[ | | ]|]; reflexivity. Qed.

Lemma left_threshold_value (self : t) :
  left_threshold self = ClassifierSpec.effective_left_threshold self.
Proof. destruct self as [[ | | ]|]; reflexivity. Qed.

Lemma get_control_state_fst (self : t) (angle : float) :
  fst (get_control_state self angle) = ClassifierSpec.classify self angle.
Proof.
  unfold get_control_state, ClassifierSpec.classify; simpl.
  now rewrite right_threshold_value, left_threshold_value.
Qed.

(** C1. For every angle and every memory, [get_control_state] uses the
    right threshold 62.0 when the last state is the right press and 60.0
    otherwise, the left threshold 88.0 when the last state is the left press
    and 90.0 otherwise, and decides in the order: below the right threshold
    the right press, else above the left threshold the left press, else
    neutral. From a fresh memory 50, 61, 63 give right, right, neutral and
    120, 89, 87 give left, left, neutral. *)
Theorem get_control_state_thresholds :
  (forall (self : t) (angle : float),
      right_threshold self = ClassifierSpec.effective_right_threshold self
      /\ left_threshold self = ClassifierSpec.effective_left_threshold self
      /\ fst (get_control_state self angle) = ClassifierSpec.classify self angle)
  /\ fst (classify_all __init__ [50; 61; 63])
     = [RIGHT_CLICK; RIGHT_CLICK; NEUTRAL]
  /\ fst (classify_all __init__ [120; 89; 87])
     = [LEFT_CLICK; LEFT_CLICK; NEUTRAL].
Proof.
  split; [|split; reflexivity].
  intros self angle.
  auto using right_threshold_value, left_threshold_value, get_control_state_fst.
Qed.

(** C2, as the claim states it, fails: with the left press as last state
    90.0 stays a left press, and with the right press as last state 60.0
    stays a right press. *)
Lemma boundary_not_neutral_under_hysteresis :
  fst (get_control_state (Some LEFT_CLICK) 90) = LEFT_CLICK
  /\ fst (get_control_state (Some RIGHT_CLICK) 60) = RIGHT_CLICK.
Proof. split; reflexivity. Qed.

(** C2, amended. 60.0 classifies as neutral for every memory but the right
    press, where it is a right press; 90.0 classifies as neutral for every
    memory but the left press, where it is a left press; and a sample equal
    to either threshold in force classifies as neutral for every memory. *)
Theorem boundary_classification (self : t) :
  fst (get_control_state self 60)
  = match self with Some RIGHT_CLICK => RIGHT_CLICK | _ => NEUTRAL end
  /\ fst (get_control_state self 90)
     = match self with Some LEFT_CLICK => LEFT_CLICK | _ => NEUTRAL end
  /\ fst (get_control_state self (right_threshold self)) = NEUTRAL
  /\ fst (get_control_state self (left_threshold self)) = NEUTRAL.
Proof. destruct self as [[ | | ]|]; repeat split; reflexivity. Qed.

(** C5. [reset_state] leaves the memory unset, whatever it was; the next
    classification then uses the thresholds 60.0 and 90.0, and 61 is
    neutral. *)
Theorem reset_state_clears_hysteresis (self : t) :
  reset_state self = None
  /\ right_threshold (reset_state self) = 60
  /\ left_threshold (reset_state self) = 90
  /\ (forall angle : float,
        fst (get_control_state (reset_state self) angle)
        = if angle <? 60 then RIGHT_CLICK
          else if 90 <? angle then LEFT_CLICK
          else NEUTRAL)
  /\ fst (get_control_state (reset_state self) 61) = NEUTRAL.
Proof.
  split; [reflexivity|]. split; [reflexivity|]. split; [reflexivity|].
  split; [|reflexivity].
  intros angle. rewrite get_control_state_fst. reflexivity.
Qed.

(** Samples that Python holds equal are classified alike. *)
Lemma get_control_state_eqb (self : t) (a b : float) :
  (a =? b) = true -> get_control_state self a = get_control_state self b.
Proof.
  intros H. unfold get_control_state.
  now rewrite (FloatFacts.ltb_eqb_l a b _ H), (FloatFacts.ltb_eqb_r a b _ H).
Qed.

(** C6. The outcome of [get_control_state] is a function of the prior
    memory and the angle: from the same memory, the same angle (the same
    number, or two that Python's [==] holds equal) gives the same state and
    the same memory afterwards; and the memory afterwards is the state just
    returned. *)
Theorem get_control_state_deterministic :
  (forall (self1 self2 : t) (angle1 angle2 : float),
      self1 = self2 ->
      angle1 = angle2 \/ (angle1 =? angle2) = true ->
      get_control_state self1 angle1 = get_control_state self2 angle2)
  /\ (forall (self : t) (angle : float),
        snd (get_control_state self angle)
        = Some (fst (get_control_state self angle))).
Proof.
  split.
  - intros self1 self2 a b -> [-> | H]; [reflexivity|].
    now apply get_control_state_eqb.
  - reflexivity.
Qed.

Lemma get_control_state_deterministic_witness :
  get_control_state (Some RIGHT_CLICK) 0 = get_control_state (Some RIGHT_CLICK) (-0)
  /\ snd (get_control_state (Some RIGHT_CLICK) 61) = Some RIGHT_CLICK.
Proof.
  split.
  - exact (proj1 get_control_state_deterministic
             (Some RIGHT_CLICK) (Some RIGHT_CLICK) 0 (-0)
             eq_refl (or_intror eq_refl)).
  - exact (proj2 get_control_state_deterministic (Some RIGHT_CLICK) 61).
Defined.

End ClassifierFacts.


(** * The elbow angle in binary64 *)

Module AngleFacts.

Import AngleCalculator.
Open Scope float_scope.

Lemma difference_degenerate (p q : Point) :
  Point_finite p = true -> Point_eqb p q = true ->
  (Np.norm (upper_arm_of p q) =? 0) = true.
Proof.
  unfold Point_finite, Point_eqb, upper_arm_of.
  intros Hf He.
  apply andb_prop in Hf as [Hf Hz]. apply andb_prop in Hf as [Hx Hy].
  apply andb_prop in He as [He Ez]. apply andb_prop in He as [Ex Ey].
  apply FloatFacts.norm_of_zeros; now apply FloatFacts.sub_eq_zero.
Qed.

Section WithLibrary.

Variable arccos : float -> float.
Variable degrees : float -> float.

Lemma calculate_elbow_angle_raises_iff (s e w : Point) :
  calculate_elbow_angle arccos degrees s e w = Raise ValueError
  <-> (Np.norm (upper_arm_of s e) =? 0) = true
      \/ (Np.norm (forearm_of w e) =? 0) = true.
Proof.
  unfold calculate_elbow_angle.
  destruct (Np.norm (upper_arm_of s e) =? 0), (Np.norm (forearm_of w e) =? 0);
    simpl; split; auto; try discriminate.
  intros [H | H]; discriminate.
Qed.

Lemma calculate_elbow_angle_returns_iff (s e w : Point) :
  (exists angle, calculate_elbow_angle arccos degrees s e w = Return angle)
  <-> (Np.norm (upper_arm_of s e) =? 0) = false
      /\ (Np.norm (forearm_of w e) =? 0) = false.
Proof.
  unfold calculate_elbow_angle.
  destruct (Np.norm (upper_arm_of s e) =? 0), (Np.norm (forearm_of w e) =? 0);
    simpl; split; try (intros [a H]; discriminate);
    try (intros [H1 H2]; discriminate); eauto.
Qed.

(** C3, amended. [calculate_elbow_angle] raises [ValueError] exactly when
    one of the two norms, as computed in binary64, is zero, and returns an
    angle exactly when neither is. For points with finite coordinates a
    norm is zero whenever the shoulder or the wrist equals the elbow
    coordinate by coordinate. *)
Theorem calculate_elbow_angle_degenerate (s e w : Point) :
  (calculate_elbow_angle arccos degrees s e w = Raise ValueError
   <-> (Np.norm (upper_arm_of s e) =? 0) = true
       \/ (Np.norm (forearm_of w e) =? 0) = true)
  /\ ((exists angle, calculate_elbow_angle arccos degrees s e w = Return angle)
      <-> (Np.norm (upper_arm_of s e) =? 0) = false
          /\ (Np.norm (forearm_of w e) =? 0) = false)
  /\ (Point_finite s = true -> Point_finite w = true ->
      Point_eqb s e = true \/ Point_eqb w e = true ->
      calculate_elbow_angle arccos degrees s e w = Raise ValueError).
Proof.
  split; [apply calculate_elbow_angle_raises_iff|].
  split; [apply calculate_elbow_angle_returns_iff|].
  intros Hs Hw H. apply calculate_elbow_angle_raises_iff.
  destruct H as [H | H]; [left | right].
  - now apply difference_degenerate.
  - change (forearm_of w e) with (upper_arm_of w e).
    now apply difference_degenerate.
Qed.

End WithLibrary.

(** The test suite's coincident shoulder and elbow. *)
Lemma calculate_elbow_angle_degenerate_witness :
  calculate_elbow_angle (fun v => v) (fun v => v)
    (mkPoint 1 1 1) (mkPoint 1 1 1) (mkPoint 2 2 2) = Raise ValueError.
Proof.
  apply (calculate_elbow_angle_degenerate (fun v => v) (fun v => v)
           (mkPoint 1 1 1) (mkPoint 1 1 1) (mkPoint 2 2 2));
    [reflexivity | reflexivity | left; reflexivity].
Defined.

(** C3, as the claim states it, fails: the shoulder at [(1e-200, 0, 0)]
    differs from the elbow at the origin, and so does the wrist at
    [(1, 0, 0)], all coordinates are finite, yet the squared length of the
    upper arm underflows to zero and [ValueError] is raised. *)
Lemma underflow_raises :
  Point_finite (mkPoint Samples.tiny 0 0) = true
  /\ Point_eqb (mkPoint Samples.tiny 0 0) Samples.origin = false
  /\ Point_eqb (mkPoint 1 0 0) Samples.origin = false
  /\ (Samples.tiny * Samples.tiny =? 0) = true
  /\ forall arccos degrees : float -> float,
       calculate_elbow_angle arccos degrees
         (mkPoint Samples.tiny 0 0) Samples.origin (mkPoint 1 0 0)
       = Raise ValueError.
Proof. repeat split. Qed.

(** The spec's right angle and a straight arm, in binary64: [np.arccos]
    receives exactly [0] and exactly [-1]. *)
Lemma right_angle_binary64 (arccos degrees : float -> float) :
  calculate_elbow_angle arccos degrees
    (mkPoint 0 0 0) (mkPoint 1 0 0) (mkPoint 1 1 0)
  = Return (degrees (arccos 0)).
Proof. reflexivity. Qed.

Lemma straight_arm_binary64 (arccos degrees : float -> float) :
  calculate_elbow_angle arccos degrees
    (mkPoint 0 0 0) (mkPoint 1 0 0) (mkPoint 2 0 0)
  = Return (degrees (arccos (-1))).
Proof. reflexivity. Qed.

End AngleFacts.


(** * Arm keypoint extraction *)

Module PoseFacts.

Import PoseDetector.
Import ArmSpec.
Open Scope float_scope.

Lemma ltb_leb_false (a b : float) : (a <? b) = true -> (b <=? a) = false.
Proof.
  intros H. destruct (b <=? a) eqn:E; [|reflexivity].
  apply FloatFacts.leb_ltb_false in E. congruence.
Qed.

Lemma min3_cases (a b c : float) : min3 a b c = a \/ min3 a b c = b \/ min3 a b c = c.
Proof.
  unfold min3. destruct (b <? a); destruct (c <? _); auto.
Qed.

Lemma min3_ok (s e w : Landmark) :
  confidence_ok s = true -> confidence_ok e = true -> confidence_ok w = true ->
  (0 <=? min3 (visibility s) (visibility e) (visibility w))
  && (min3 (visibility s) (visibility e) (visibility w) <=? 1) = true.
Proof.
  unfold confidence_ok. intros Hs He Hw.
  destruct (min3_cases (visibility s) (visibility e) (visibility w))
    as [-> | [-> | ->]]; assumption.
Qed.

Lemma arm_landmarks_short (lms : PoseLandmarks) (si ei wi : nat) :
  Nat.leb (List.length lms) (Nat.max (Nat.max si ei) wi) = true ->
  arm_landmarks lms si ei wi = None.
Proof.
  intros H. apply Nat.leb_le in H. unfold arm_landmarks.
  destruct (nth_error lms si) eqn:Es; [|reflexivity].
  destruct (nth_error lms ei) eqn:Ee; [|reflexivity].
  destruct (nth_error lms wi) eqn:Ew; [|reflexivity].
  assert (si < List.length lms)%nat by (apply nth_error_Some; congruence).
  assert (ei < List.length lms)%nat by (apply nth_error_Some; congruence).
  assert (wi < List.length lms)%nat by (apply nth_error_Some; congruence).
  lia.
Qed.

(** What [_extract_arm_keypoints] returns on landmarks whose confidences
    are in the unit interval. *)
Lemma extract_arm_keypoints_eq (self : t) (lms : PoseLandmarks) (si ei wi : nat) :
  forallb confidence_ok lms = true ->
  _extract_arm_keypoints self lms si ei wi
  = Return match arm_landmarks lms si ei wi with
           | Some arm =>
               if arm_confidence arm <? confidence_threshold self then None
               else Some (arm_keypoints arm)
           | None => None
           end.
Proof.
  intros Hok. unfold _extract_arm_keypoints.
  destruct (Nat.leb _ _) eqn:Hlen.
  - now rewrite (arm_landmarks_short lms si ei wi Hlen).
  - unfold arm_landmarks.
    destruct (nth_error lms si) as [s|] eqn:Es; [|reflexivity].
    destruct (nth_error lms ei) as [e|] eqn:Ee; [|reflexivity].
    destruct (nth_error lms wi) as [w|] eqn:Ew; [|reflexivity].
    simpl. destruct (_ <? _); [reflexivity|].
    unfold ArmKeypoints_new.
    rewrite forallb_forall in Hok.
    rewrite min3_ok by (apply Hok; eapply nth_error_In; eassumption).
    reflexivity.
Qed.

(** The second test of the source, [arm.confidence >= threshold], decides
    alone. *)
Lemma accepted_extract (self : t) (lms : PoseLandmarks) (si ei wi : nat) :
  let arm := match arm_landmarks lms si ei wi with
             | Some arm =>
                 if arm_confidence arm <? confidence_threshold self then None
                 else Some (arm_keypoints arm)
             | None => None
             end in
  (if accepted self arm then arm else None)
  = usable_arm (confidence_threshold self) lms si ei wi.
Proof.
  unfold usable_arm. destruct (arm_landmarks lms si ei wi) as [[[s e] w]|]; simpl;
    [|reflexivity].
  destruct (_ <? _) eqn:Hlt; simpl.
  - now rewrite (ltb_leb_false _ _ Hlt).
  - now destruct (_ <=? _).
Qed.

Lemma accepted_usable (self : t) (arm : option ArmKeypoints) :
  accepted self arm = true -> exists kp, arm = Some kp.
Proof. destruct arm; [eauto | discriminate]. Qed.

Lemma get_arm_keypoints_eq (self : t) (lms : PoseLandmarks) :
  lms <> [] ->
  forallb confidence_ok lms = true ->
  get_arm_keypoints self lms = Return (select_arm (confidence_threshold self) lms).
Proof.
  intros Hne Hok. unfold get_arm_keypoints, select_arm.
  destruct lms as [|lm rest]; [congruence|].
  set (lms := lm :: rest) in *.
  rewrite !extract_arm_keypoints_eq by assumption. simpl bind.
  rewrite <- !accepted_extract. cbv zeta.
  set (la := match arm_landmarks lms LEFT_SHOULDER LEFT_ELBOW LEFT_WRIST with
             | Some _ => _ | None => _ end).
  set (ra := match arm_landmarks lms RIGHT_SHOULDER RIGHT_ELBOW RIGHT_WRIST with
             | Some _ => _ | None => _ end).
  destruct (accepted self la) eqn:Hla.
  - destruct (accepted_usable self la Hla) as [kp ->]. reflexivity.
  - now destruct (accepted self ra).
Qed.

Lemma usable_arm_inv (threshold : float) (lms : PoseLandmarks) (si ei wi : nat)
    (kp : ArmKeypoints) :
  usable_arm threshold lms si ei wi = Some kp ->
  exists arm, arm_landmarks lms si ei wi = Some arm
              /\ kp = arm_keypoints arm
              /\ (threshold <=? arm_confidence arm) = true.
Proof.
  unfold usable_arm. destruct (arm_landmarks lms si ei wi) as [arm|]; [|discriminate].
  destruct (_ <=? _) eqn:E; [|discriminate].
  intros [= <-]. eauto.
Qed.

Lemma arm_keypoints_confidence (arm : Landmark * Landmark * Landmark) :
  confidence (arm_keypoints arm) = arm_confidence arm.
Proof. now destruct arm as [[s e] w]. Qed.

(** C9, amended. For every landmark list that is not empty and whose
    per-point confidences lie in the unit interval, [get_arm_keypoints]
    returns the left arm when the list holds its indices and the minimum of
    its three confidences is at least the threshold; otherwise the right arm
    under the same condition; otherwise nothing. What is returned carries
    the minimum of its three per-point confidences as its confidence, and
    that confidence is at least the threshold. On the empty list
    [ValueError] is raised. *)
Theorem get_arm_keypoints_selects (self : t) :
  (forall lms : PoseLandmarks,
      lms <> [] ->
      forallb confidence_ok lms = true ->
      get_arm_keypoints self lms
      = Return (select_arm (confidence_threshold self) lms)
      /\ forall kp : ArmKeypoints,
           get_arm_keypoints self lms = Return (Some kp) ->
           exists arm : Landmark * Landmark * Landmark,
             (arm_landmarks lms LEFT_SHOULDER LEFT_ELBOW LEFT_WRIST = Some arm
              \/ arm_landmarks lms RIGHT_SHOULDER RIGHT_ELBOW RIGHT_WRIST
                 = Some arm)
             /\ kp = arm_keypoints arm
             /\ confidence kp = arm_confidence arm
             /\ (confidence_threshold self <=? confidence kp) = true)
  /\ get_arm_keypoints self [] = Raise ValueError.
Proof.
  split; [|reflexivity].
  intros lms Hne Hok.
  pose proof (get_arm_keypoints_eq self lms Hne Hok) as Heq.
  split; [exact Heq|].
  intros kp Hkp. rewrite Heq in Hkp. injection Hkp as Hkp.
  unfold select_arm in Hkp.
  destruct (usable_arm _ lms LEFT_SHOULDER _ _) as [la|] eqn:Hl.
  - injection Hkp as ->.
    apply usable_arm_inv in Hl as (arm & Ha & -> & Ht).
    exists arm. rewrite arm_keypoints_confidence. auto.
  - apply usable_arm_inv in Hkp as (arm & Ha & -> & Ht).
    exists arm. rewrite arm_keypoints_confidence. auto.
Qed.

(** With all 33 landmarks seen at 0.9375 and the threshold at 0.5, the left
    arm is returned, with confidence 0.9375. *)
Lemma get_arm_keypoints_selects_witness :
  get_arm_keypoints Samples.detector Samples.seen
  = Return (Some (mkArmKeypoints (mkPoint 0.5 0.5 0) (mkPoint 0.5 0.5 0)
                                 (mkPoint 0.5 0.5 0) 0.9375)).
Proof.
  refine (eq_trans
            (proj1 (proj1 (get_arm_keypoints_selects Samples.detector)
                      Samples.seen _ _))
            _).
  - discriminate.
  - reflexivity.
  - reflexivity.
Defined.

(** C9, as the claim states it, fails on the shortest list: on the empty
    landmark list nothing is returned, [ValueError] is raised. *)
Lemma empty_landmarks_raise :
  get_arm_keypoints Samples.detector [] = Raise ValueError
  /\ select_arm (confidence_threshold Samples.detector) [] = None.
Proof. split; reflexivity. Qed.

End PoseFacts.

(** * The mouse controller *)

Module MouseFacts.

Import MouseController.

(** C10. When the state asked for is the state held, [set_state] returns
    at once: no [pyautogui] call is made (the device and the outcomes it
    holds in store are untouched), and the held state and the error count
    are as before. *)
Theorem set_state_redundant (self : t) (state : ControlState) (w : PyAutoGUI.t) :
  _current_state self = state ->
  set_state self state w = (Return tt, self, w).
Proof.
  intros <-. unfold set_state. now rewrite ControlState_eqb_refl.
Qed.

(** Held left with three failures counted, in front of a device about to
    fail: asking for left again changes nothing and spends no call. *)
Lemma set_state_redundant_witness :
  set_state (mk LEFT_CLICK 3 5) LEFT_CLICK (PyAutoGUI.mk [] [true])
  = (Return tt, mk LEFT_CLICK 3 5, PyAutoGUI.mk [] [true]).
Proof.
  apply (set_state_redundant (mk LEFT_CLICK 3 5) LEFT_CLICK
           (PyAutoGUI.mk [] [true])).
  reflexivity.
Defined.

(** [set_state] never touches the error limit, and leaves the held state
    either as it was or as asked for. *)
Lemma set_state_max_errors (self : t) (state : ControlState) (w : PyAutoGUI.t) :
  _max_errors (snd (fst (set_state self state w))) = _max_errors self.
Proof.
  unfold set_state. destruct (ControlState_eqb _ _); [reflexivity|].
  destruct (_transition_to_state self state w) as [[u|e] w']; [reflexivity|].
  simpl. now destruct (Nat.leb _ _).
Qed.

(** It raises only once the limit of consecutive failures is reached. *)
Lemma set_state_raises_counted (self : t) (state : ControlState)
    (w : PyAutoGUI.t) (e : exn) :
  fst (fst (set_state self state w)) = Raise e ->
  e = MouseControlError
  /\ _error_count (snd (fst (set_state self state w))) = S (_error_count self)
  /\ (_max_errors self <= S (_error_count self))%nat
  /\ _current_state (snd (fst (set_state self state w))) = _current_state self.
Proof.
  unfold set_state. destruct (ControlState_eqb _ _); [discriminate|].
  destruct (_transition_to_state self state w) as [[u|e'] w']; [discriminate|].
  simpl. destruct (Nat.leb _ _) eqn:E; [|discriminate].
  intros [= <-]. apply Nat.leb_le in E. auto.
Qed.

End MouseFacts.

(** * The control loop *)

Module ControllerFacts.

Import ApplicationController.
Open Scope float_scope.

(** ** [_set_neutral_state] *)

Lemma set_neutral_state_frame (self : t) :
  angle_calculator (_set_neutral_state self) = angle_calculator self
  /\ pose_detector (_set_neutral_state self) = pose_detector self
  /\ _running (_set_neutral_state self) = _running self
  /\ last_valid_angle (system_state (_set_neutral_state self))
     = last_valid_angle (system_state self)
  /\ error_count (system_state (_set_neutral_state self))
     = error_count (system_state self)
  /\ pose_control_enabled (system_state (_set_neutral_state self))
     = pose_control_enabled (system_state self).
Proof.
  unfold _set_neutral_state.
  destruct (negb _); [|repeat split].
  destruct (MouseController.set_state _ _ _) as [[[u|e] m] w]; repeat split.
Qed.

Lemma set_neutral_state_current (self : t) :
  current_control_state (system_state (_set_neutral_state self))
  = if negb (ControlState_eqb (current_control_state (system_state self)) NEUTRAL)
       && set_state_raises self NEUTRAL
    then current_control_state (system_state self)
    else NEUTRAL.
Proof.
  unfold _set_neutral_state, set_state_raises.
  destruct (ControlState_eqb_spec (current_control_state (system_state self)) NEUTRAL)
    as [E | E]; simpl; [exact E|].
  now destruct (MouseController.set_state _ _ _) as [[[u|e] m] w].
Qed.

Section WithLibrary.

Variable arccos : float -> float.
Variable degrees : float -> float.

Lemma process_pose_detection_missing (self : t)
    (landmarks : option PoseDetector.PoseLandmarks) :
  no_usable_keypoints arccos degrees (pose_detector self) landmarks = true ->
  _process_pose_detection arccos degrees self landmarks
  = Return (_set_neutral_state self).
Proof.
  unfold no_usable_keypoints, _process_pose_detection.
  destruct landmarks as [lms|]; [|reflexivity].
  destruct (PoseDetector.get_arm_keypoints _ lms) as [[kp|]|e]; simpl;
    try discriminate; try reflexivity.
  destruct (AngleCalculator.calculate_elbow_angle _ _ _ _ _) as [a|[ | | ]];
    try discriminate; reflexivity.
Qed.

Lemma process_frame_missing (self : t)
    (frame : option (option PoseDetector.PoseLandmarks)) :
  missing arccos degrees self frame = true ->
  snd (_process_frame arccos degrees self frame) = self
  \/ snd (_process_frame arccos degrees self frame) = _set_neutral_state self.
Proof.
  destruct frame as [landmarks|]; simpl; [|now left].
  intros H. destruct (pose_control_enabled _); [|now right].
  rewrite (process_pose_detection_missing self landmarks H). now right.
Qed.

(** Over any run of missing frames the classifier's memory, the last valid
    angle and the error count stay as they were. *)
Lemma frames_missing (fs : list (option (option PoseDetector.PoseLandmarks))) :
  forall self : t,
    forallb (missing arccos degrees self) fs = true ->
    angle_calculator (frames arccos degrees self fs) = angle_calculator self
    /\ pose_detector (frames arccos degrees self fs) = pose_detector self
    /\ last_valid_angle (system_state (frames arccos degrees self fs))
       = last_valid_angle (system_state self)
    /\ error_count (system_state (frames arccos degrees self fs))
       = error_count (system_state self).
Proof.
  induction fs as [|f fs IH]; intros self H; simpl; [repeat split|].
  simpl in H. apply andb_prop in H as [Hf Hfs].
  pose proof (set_neutral_state_frame self) as (Ha & Hp & _ & Hl & He & _).
  assert (Hstep :
    angle_calculator (snd (_process_frame arccos degrees self f))
    = angle_calculator self
    /\ pose_detector (snd (_process_frame arccos degrees self f))
       = pose_detector self
    /\ last_valid_angle (system_state (snd (_process_frame arccos degrees self f)))
       = last_valid_angle (system_state self)
    /\ error_count (system_state (snd (_process_frame arccos degrees self f)))
       = error_count (system_state self)).
  { destruct (process_frame_missing self f Hf) as [-> | ->]; auto. }
  destruct Hstep as (Ha' & Hp' & Hl' & He').
  destruct (IH (snd (_process_frame arccos degrees self f))) as (I1 & I2 & I3 & I4).
  - unfold missing in *. rewrite Hp'. exact Hfs.
  - rewrite I1, I2, I3, I4. auto.
Qed.

(** C7, amended. On a frame without usable keypoints (no pose, no arm
    above the threshold, or an arm on which the angle computation raises)
    [_process_pose_detection] does what [_set_neutral_state] does and
    nothing else: the classifier is not called, its memory, the last valid
    angle and the error count are as before, and the loop's current state
    becomes neutral, unless it was not neutral and [set_state] raised, in
    which case it stays as it was. Over any run of missing frames the
    classifier's memory is the one before the run. *)
Theorem missing_keypoints_skip_classifier :
  (forall (self : t) (landmarks : option PoseDetector.PoseLandmarks),
      no_usable_keypoints arccos degrees (pose_detector self) landmarks = true ->
      _process_pose_detection arccos degrees self landmarks
      = Return (_set_neutral_state self)
      /\ angle_calculator (_set_neutral_state self) = angle_calculator self
      /\ last_valid_angle (system_state (_set_neutral_state self))
         = last_valid_angle (system_state self)
      /\ error_count (system_state (_set_neutral_state self))
         = error_count (system_state self)
      /\ current_control_state (system_state (_set_neutral_state self))
         = if negb (ControlState_eqb
                      (current_control_state (system_state self)) NEUTRAL)
              && set_state_raises self NEUTRAL
           then current_control_state (system_state self)
           else NEUTRAL)
  /\ (forall (fs : list (option (option PoseDetector.PoseLandmarks))) (self : t),
        forallb (missing arccos degrees self) fs = true ->
        angle_calculator (frames arccos degrees self fs) = angle_calculator self).
Proof.
  split.
  - intros self landmarks H.
    pose proof (set_neutral_state_frame self) as (Ha & _ & _ & Hl & He & _).
    auto using process_pose_detection_missing, set_neutral_state_current.
  - intros fs self H. now apply frames_missing.
Qed.

End WithLibrary.

(** A frame on which all landmarks coincide, seen by a controller that
    holds the left button: the angle computation raises, the loop's state
    becomes neutral and the classifier still remembers the left press. *)
Lemma missing_keypoints_skip_classifier_witness :
  _process_pose_detection (fun v => v) (fun v => v)
    Samples.holding_left (Some Samples.seen)
  = Return (_set_neutral_state Samples.holding_left)
  /\ angle_calculator (_set_neutral_state Samples.holding_left) = Some LEFT_CLICK
  /\ current_control_state (system_state (_set_neutral_state Samples.holding_left))
     = NEUTRAL.
Proof.
  destruct (proj1 (missing_keypoints_skip_classifier (fun v => v) (fun v => v))
              Samples.holding_left (Some Samples.seen) eq_refl)
    as (H1 & H2 & _ & _ & H5).
  split; [exact H1|]. split; [exact H2|exact H5].
Defined.

(** C7, as the claim states it, fails: the controller [before_dropout]
    holds the left button and four releases have failed; on a frame without
    a pose the fifth release fails, [set_state] raises, and the loop's
    state stays the left press instead of falling back to neutral. *)
Lemma dropout_without_neutral :
  no_usable_keypoints (fun v => v) (fun v => v)
    (pose_detector Samples.before_dropout) None = true
  /\ (forall arccos degrees : float -> float,
        exists self' : t,
          _process_pose_detection arccos degrees Samples.before_dropout None
          = Return self'
          /\ current_control_state (system_state self') = LEFT_CLICK
          /\ MouseController._current_state (mouse_controller self') = LEFT_CLICK).
Proof.
  split; [reflexivity|].
  intros arccos degrees. eexists. repeat split.
Qed.

(** The classifier's answer on a straight arm is the left press, whatever
    it remembers. *)
Lemma classify_straight (calc : AngleCalculator.t) :
  AngleCalculator.get_control_state calc 180 = (LEFT_CLICK, Some LEFT_CLICK).
Proof. destruct calc as [[ | | ]|]; reflexivity. Qed.

Lemma straight_arm_keypoints :
  PoseDetector.get_arm_keypoints Samples.detector Samples.straight_arm
  = Return (Some (mkArmKeypoints (mkPoint 0 0 0) (mkPoint 1 0 0)
                                 (mkPoint 2 0 0) 0.9375)).
Proof. reflexivity. Qed.

Section Reachability.

Variable arccos : float -> float.
Variable degrees : float -> float.
Hypothesis straight_is_180 : degrees (arccos (-1)) = 180.

(** A frame with the straight arm, seen by an enabled controller. *)
Lemma process_frame_straight (self : t) :
  pose_detector self = Samples.detector ->
  pose_control_enabled (system_state self) = true ->
  snd (_process_frame arccos degrees self (Some (Some Samples.straight_arm)))
  = _update_mouse_control
      (set_angle_calculator
         (set_system_state self
            (mkSystemState true (current_control_state (system_state self))
                           (Some 180) (error_count (system_state self))))
         (Some LEFT_CLICK))
      LEFT_CLICK.
Proof.
  intros Hpd Hen. unfold _process_frame, _process_pose_detection.
  rewrite Hen, Hpd, straight_arm_keypoints.
  cbn [bind shoulder elbow wrist].
  rewrite AngleFacts.straight_arm_binary64, straight_is_180.
  change (AngleCalculator.is_angle_valid 180) with true. cbv iota.
  cbn [angle_calculator set_system_state].
  rewrite classify_straight. reflexivity.
Qed.

(** A frame without a pose, seen by an enabled controller. *)
Lemma process_frame_no_pose (self : t) :
  pose_control_enabled (system_state self) = true ->
  snd (_process_frame arccos degrees self (Some None)) = _set_neutral_state self.
Proof. intros Hen. unfold _process_frame. now rewrite Hen. Qed.

Lemma frames_cons (self : t)
    (f : option (option PoseDetector.PoseLandmarks))
    (fs : list (option (option PoseDetector.PoseLandmarks))) :
  frames arccos degrees self (f :: fs)
  = frames arccos degrees (snd (_process_frame arccos degrees self f)) fs.
Proof. reflexivity. Qed.

Ltac straight_frame :=
  rewrite frames_cons; rewrite process_frame_straight by reflexivity;
  match goal with
  | |- frames _ _ ?s _ = _ => let v := eval vm_compute in s in change s with v
  end.

Ltac no_pose_frame :=
  rewrite frames_cons; rewrite process_frame_no_pose by reflexivity;
  match goal with
  | |- frames _ _ ?s _ = _ => let v := eval vm_compute in s in change s with v
  end.

(** [before_dropout] is what the loop reaches from its initial state over
    the frames [flicker] on the device [failing_device], for any library
    that gives 180 degrees on a straight arm. *)
Lemma flicker_reaches :
  frames arccos degrees
    (initialize Samples.detector Samples.failing_device) Samples.flicker
  = Samples.before_dropout.
Proof.
  unfold Samples.flicker.
  straight_frame. no_pose_frame. straight_frame. no_pose_frame.
  straight_frame. no_pose_frame. straight_frame. no_pose_frame.
  straight_frame. reflexivity.
Qed.

End Reachability.

Lemma folded_arm_keypoints :
  PoseDetector.get_arm_keypoints Samples.detector Samples.folded_arm
  = Return (Some (mkArmKeypoints (mkPoint 2 0 0) (mkPoint 1 0 0)
                                 (mkPoint 2 0 0) 0.9375)).
Proof. reflexivity. Qed.

Lemma classify_folded (calc : AngleCalculator.t) :
  AngleCalculator.get_control_state calc 0 = (RIGHT_CLICK, Some RIGHT_CLICK).
Proof. destruct calc as [[ | | ]|]; reflexivity. Qed.

Section ReachabilityFolded.

Variable arccos : float -> float.
Variable degrees : float -> float.
Hypothesis folded_is_0 : degrees (arccos 1) = 0.

(** A frame with the folded arm, seen by an enabled controller. *)
Lemma process_frame_folded (self : t) :
  pose_detector self = Samples.detector ->
  pose_control_enabled (system_state self) = true ->
  snd (_process_frame arccos degrees self (Some (Some Samples.folded_arm)))
  = _update_mouse_control
      (set_angle_calculator
         (set_system_state self
            (mkSystemState true (current_control_state (system_state self))
                           (Some 0) (error_count (system_state self))))
         (Some RIGHT_CLICK))
      RIGHT_CLICK.
Proof.
  intros Hpd Hen. unfold _process_frame, _process_pose_detection.
  rewrite Hen, Hpd, folded_arm_keypoints.
  cbn [bind shoulder elbow wrist].
  change (AngleCalculator.calculate_elbow_angle arccos degrees
            (mkPoint 2 0 0) (mkPoint 1 0 0) (mkPoint 2 0 0))
    with (Return (degrees (arccos 1))).
  rewrite folded_is_0.
  change (AngleCalculator.is_angle_valid 0) with true. cbv iota.
  cbn [angle_calculator set_system_state].
  rewrite classify_folded. reflexivity.
Qed.

(** Any image, seen by a controller whose pose control is off. *)
Lemma process_frame_disabled (self : t)
    (landmarks : option PoseDetector.PoseLandmarks) :
  pose_control_enabled (system_state self) = false ->
  snd (_process_frame arccos degrees self (Some landmarks))
  = _set_neutral_state self.
Proof. intros Hd. unfold _process_frame. now rewrite Hd. Qed.

Ltac folded_frame :=
  rewrite frames_cons; rewrite process_frame_folded by reflexivity;
  match goal with
  | |- frames _ _ ?s _ = _ => let v := eval vm_compute in s in change s with v
  end.

(** [switched_off] is what the loop reaches from its initial state over
    the frames [folded] on the device [broken_device], for any library
    that gives 0 degrees on an arm folded flat: ten commands fail, the last
    six of them raise, and the eleventh frame finds pose control off. *)
Lemma folded_reaches :
  frames arccos degrees
    (initialize Samples.detector Samples.broken_device) Samples.folded
  = Samples.switched_off.
Proof.
  unfold Samples.folded. cbn [repeat].
  do 10 folded_frame.
  rewrite frames_cons, process_frame_disabled by reflexivity.
  reflexivity.
Qed.

End ReachabilityFolded.

(** ** Error accounting *)

Lemma update_mouse_control_raise (self : t) (c : ControlState) :
  set_state_raises self c = true ->
  error_count (system_state (_update_mouse_control self c))
  = S (error_count (system_state self))
  /\ pose_control_enabled (system_state (_update_mouse_control self c))
     = (if Nat.ltb 5 (S (error_count (system_state self))) then false
        else pose_control_enabled (system_state self))
  /\ current_control_state (system_state (_update_mouse_control self c))
     = current_control_state (system_state self)
  /\ angle_calculator (_update_mouse_control self c) = angle_calculator self.
Proof.
  unfold set_state_raises, _update_mouse_control.
  destruct (MouseController.set_state _ _ _) as [[[u|e] m] w];
    [discriminate | repeat split].
Qed.

Lemma update_mouse_control_return (self : t) (c : ControlState) :
  set_state_raises self c = false ->
  error_count (system_state (_update_mouse_control self c)) = 0%nat
  /\ pose_control_enabled (system_state (_update_mouse_control self c))
     = pose_control_enabled (system_state self)
  /\ current_control_state (system_state (_update_mouse_control self c)) = c
  /\ angle_calculator (_update_mouse_control self c) = angle_calculator self.
Proof.
  unfold set_state_raises, _update_mouse_control.
  destruct (MouseController.set_state _ _ _) as [[[u|e] m] w];
    [repeat split | discriminate].
Qed.

(** A [pyautogui] failure that the mouse controller swallows is a success
    for the loop: the count is reset and the loop's state is the one asked
    for, though the mouse controller still holds the previous one. *)
Lemma swallowed_failure_counts_as_success :
  set_state_raises Samples.holding_left RIGHT_CLICK = false
  /\ (let self := set_mouse Samples.holding_left
                    (mouse_controller Samples.holding_left)
                    (PyAutoGUI.mk [] [true]) in
      set_state_raises self RIGHT_CLICK = false
      /\ error_count (system_state (_update_mouse_control self RIGHT_CLICK)) = 0%nat
      /\ current_control_state
           (system_state (_update_mouse_control self RIGHT_CLICK)) = RIGHT_CLICK
      /\ MouseController._current_state
           (mouse_controller (_update_mouse_control self RIGHT_CLICK)) = LEFT_CLICK
      /\ MouseController._error_count
           (mouse_controller (_update_mouse_control self RIGHT_CLICK)) = 1%nat).
Proof. repeat split. Qed.

(** A run of raising commands: the count grows by one with each, and control
    is off as soon as the count has passed 5. *)
Lemma updates_all_raise (cs : list ControlState) :
  forall self : t,
    all_raise self cs = true ->
    error_count (system_state (updates self cs))
    = (error_count (system_state self) + List.length cs)%nat
    /\ (cs <> [] ->
        (5 < error_count (system_state self) + List.length cs)%nat ->
        pose_control_enabled (system_state (updates self cs)) = false).
Proof.
  induction cs as [|c cs IH]; intros self H; simpl.
  - split; [lia | congruence].
  - simpl in H. apply andb_prop in H as [Hc Hcs].
    destruct (update_mouse_control_raise self c Hc) as (He & Hp & _ & _).
    destruct (IH (_update_mouse_control self c) Hcs) as [IH1 IH2].
    rewrite He in IH1, IH2.
    split; [lia|]. intros _ Hgt.
    destruct cs as [|c' cs'].
    + simpl in *. rewrite Hp.
      destruct (Nat.ltb_spec 5 (S (error_count (system_state self))));
        [reflexivity | lia].
    + apply IH2; [discriminate | simpl in *; lia].
Qed.

Lemma handle_keyboard_input_keeps_disabled (self : t) (key : option string) :
  reenabling_key key = false ->
  pose_control_enabled (system_state (_handle_keyboard_input self key))
  = pose_control_enabled (system_state self).
Proof.
  destruct key as [k|]; [|reflexivity].
  simpl. intros H. apply orb_false_elim in H as [Hs Hr].
  rewrite Hs, Hr. now destruct (_ || _).
Qed.

Section LoopFacts.

Variable arccos : float -> float.
Variable degrees : float -> float.

Lemma tick_keeps_disabled (self : t)
    (input : option (option PoseDetector.PoseLandmarks) * option string) :
  pose_control_enabled (system_state self) = false ->
  reenabling_key (snd input) = false ->
  pose_control_enabled (system_state (tick arccos degrees self input)) = false.
Proof.
  destruct input as [frame key]; simpl. intros Hd Hk.
  assert (H : pose_control_enabled
                (system_state (snd (_process_frame arccos degrees self frame)))
              = false).
  { destruct frame as [landmarks|]; simpl; [|exact Hd].
    rewrite Hd; simpl.
    pose proof (set_neutral_state_frame self) as (_ & _ & _ & _ & _ & Hp).
    congruence. }
  destruct (_process_frame arccos degrees self frame) as [b self1].
  simpl in H. now rewrite handle_keyboard_input_keeps_disabled.
Qed.

(** Once off, pose control stays off over any number of turns of the loop
    in which neither the reset key nor the toggle key is pressed. *)
Lemma loop_keeps_disabled
    (inputs : list (option (option PoseDetector.PoseLandmarks) * option string)) :
  forall self : t,
    pose_control_enabled (system_state self) = false ->
    forallb (fun i => negb (reenabling_key (snd i))) inputs = true ->
    pose_control_enabled (system_state (loop arccos degrees self inputs)) = false.
Proof.
  induction inputs as [|i inputs IH]; intros self Hd Hk; simpl; [exact Hd|].
  simpl in Hk. apply andb_prop in Hk as [Hi Hk].
  destruct (_running self); [|exact Hd].
  apply IH; [|exact Hk].
  apply tick_keeps_disabled; [exact Hd|].
  now destruct (reenabling_key (snd i)).
Qed.

End LoopFacts.

(** C8, amended. A call of [_update_mouse_control] in which [set_state]
    raises adds one to the error count, and one in which it returns resets
    the count to 0; after a run of raising calls that brings the count past
    5 pose control is off; once off it stays off over every turn of the loop
    in which neither the reset key nor the toggle key is pressed; the reset
    key sets the loop's error count and the mouse controller's error count to
    0 and switches pose control on, and leaves the classifier's memory as it
    was. *)
Theorem error_accounting :
  (forall (self : t) (c : ControlState),
      (set_state_raises self c = true ->
       error_count (system_state (_update_mouse_control self c))
       = S (error_count (system_state self)))
      /\ (set_state_raises self c = false ->
          error_count (system_state (_update_mouse_control self c)) = 0%nat))
  /\ (forall (cs : list ControlState) (self : t),
        all_raise self cs = true -> cs <> [] ->
        error_count (system_state (updates self cs))
        = (error_count (system_state self) + List.length cs)%nat
        /\ ((5 < error_count (system_state self) + List.length cs)%nat ->
            pose_control_enabled (system_state (updates self cs)) = false))
  /\ (forall (arccos degrees : float -> float)
             (inputs : list (option (option PoseDetector.PoseLandmarks)
                             * option string))
             (self : t),
        pose_control_enabled (system_state self) = false ->
        forallb (fun i => negb (reenabling_key (snd i))) inputs = true ->
        pose_control_enabled
          (system_state (loop arccos degrees self inputs)) = false)
  /\ (forall self : t,
        error_count (system_state (_handle_keyboard_input self (Some "r"%string)))
        = 0%nat
        /\ pose_control_enabled
             (system_state (_handle_keyboard_input self (Some "r"%string)))
           = true
        /\ MouseController._error_count
             (mouse_controller (_handle_keyboard_input self (Some "r"%string)))
           = 0%nat
        /\ angle_calculator (_handle_keyboard_input self (Some "r"%string))
           = angle_calculator self).
Proof.
  split; [|split; [|split]].
  - intros self c. split; intros H.
    + now apply update_mouse_control_raise.
    + now apply update_mouse_control_return.
  - intros cs self H Hne.
    destruct (updates_all_raise cs self H) as [H1 H2]. auto.
  - intros arccos degrees inputs self. apply loop_keeps_disabled.
  - intros self. repeat split.
Qed.

(** Six commands in a row on which [set_state] raises: the count goes from
    0 to 6 and pose control is off. *)
Lemma error_accounting_witness :
  error_count (system_state
                 (updates Samples.failing
                    [LEFT_CLICK; LEFT_CLICK; LEFT_CLICK;
                     LEFT_CLICK; LEFT_CLICK; LEFT_CLICK])) = 6%nat
  /\ pose_control_enabled
       (system_state
          (updates Samples.failing
             [LEFT_CLICK; LEFT_CLICK; LEFT_CLICK;
              LEFT_CLICK; LEFT_CLICK; LEFT_CLICK])) = false.
Proof.
  destruct (proj1 (proj2 error_accounting)
              [LEFT_CLICK; LEFT_CLICK; LEFT_CLICK;
               LEFT_CLICK; LEFT_CLICK; LEFT_CLICK]
              Samples.failing eq_refl ltac:(discriminate)) as [H1 H2].
  split; [exact H1|]. apply H2. simpl. lia.
Defined.

(** C8, as the claim states it, fails: after the reset key the classifier
    still remembers the right press, where [reset_state] would have left
    the memory unset. *)
Lemma reset_key_keeps_memory :
  angle_calculator (_handle_keyboard_input Samples.switched_off (Some "r"%string))
  = Some RIGHT_CLICK
  /\ AngleCalculator.reset_state (angle_calculator Samples.switched_off) = None
  /\ error_count (system_state
                    (_handle_keyboard_input Samples.switched_off (Some "r"%string)))
     = 0%nat
  /\ fst (AngleCalculator.get_control_state
            (angle_calculator
               (_handle_keyboard_input Samples.switched_off (Some "r"%string)))
            61) = RIGHT_CLICK.
Proof. repeat split. Qed.

End ControllerFacts.

(** * The order of binary64 numbers *)

Module FloatOrder.

Ltac sf_cases :=
  repeat match goal with
         | s : bool |- _ => destruct s
         end;
  cbn;
  change (Pos.compare_cont Eq) with Pos.compare;
  repeat match goal with
         | |- context [Z.compare ?x ?y] => destruct (Z.compare_spec x y)
         | |- context [Pos.compare ?x ?y] => destruct (Pos.compare_spec x y)
         end;
  cbn; try congruence; try lia.

Lemma SFltb_trans a b c :
  SFltb a b = true -> SFltb b c = true -> SFltb a c = true.
Proof.
  unfold SFltb, SFcompare.
  destruct a as [sa|sa| |sa ma ea], b as [sb|sb| |sb mb eb],
           c as [sc|sc| |sc mc ec]; sf_cases.
Qed.

Lemma SFleb_ltb_trans a b c :
  SFleb a b = true -> SFltb b c = true -> SFltb a c = true.
Proof.
  unfold SFltb, SFleb, SFcompare.
  destruct a as [sa|sa| |sa ma ea], b as [sb|sb| |sb mb eb],
           c as [sc|sc| |sc mc ec]; sf_cases.
Qed.

Lemma SFltb_leb_trans a b c :
  SFltb a b = true -> SFleb b c = true -> SFltb a c = true.
Proof.
  unfold SFltb, SFleb, SFcompare.
  destruct a as [sa|sa| |sa ma ea], b as [sb|sb| |sb mb eb],
           c as [sc|sc| |sc mc ec]; sf_cases.
Qed.

Lemma SFleb_trans a b c :
  SFleb a b = true -> SFleb b c = true -> SFleb a c = true.
Proof.
  unfold SFleb, SFcompare.
  destruct a as [sa|sa| |sa ma ea], b as [sb|sb| |sb mb eb],
           c as [sc|sc| |sc mc ec]; sf_cases.
Qed.

Open Scope float_scope.

Lemma ltb_trans (a b c : float) :
  (a <? b) = true -> (b <? c) = true -> (a <? c) = true.
Proof. rewrite !ltb_spec. apply SFltb_trans. Qed.

Lemma leb_ltb_trans (a b c : float) :
  (a <=? b) = true -> (b <? c) = true -> (a <? c) = true.
Proof. rewrite leb_spec, !ltb_spec. apply SFleb_ltb_trans. Qed.

Lemma ltb_leb_trans (a b c : float) :
  (a <? b) = true -> (b <=? c) = true -> (a <? c) = true.
Proof. rewrite leb_spec, !ltb_spec. apply SFltb_leb_trans. Qed.

Lemma leb_trans (a b c : float) :
  (a <=? b) = true -> (b <=? c) = true -> (a <=? c) = true.
Proof. rewrite !leb_spec. apply SFleb_trans. Qed.

Lemma ltb_leb (a b : float) : (a <? b) = true -> (a <=? b) = true.
Proof.
  rewrite ltb_spec, leb_spec. unfold SFltb, SFleb.
  now destruct (SFcompare _ _) as [[ | | ]|].
Qed.

(** A number is comparable with itself unless it is a NaN. *)
Lemma leb_refl (a : float) : is_nan a = false -> (a <=? a) = true.
Proof.
  unfold is_nan. rewrite eqb_spec, leb_spec. unfold SFeqb, SFleb.
  now destruct (SFcompare _ _) as [[ | | ]|].
Qed.

(** What is neither below nor a NaN is at or above. *)
Lemma ltb_false_leb (a b : float) :
  is_nan a = false -> is_nan b = false ->
  (a <? b) = false -> (b <=? a) = true.
Proof.
  unfold is_nan. rewrite !eqb_spec, ltb_spec, leb_spec.
  unfold SFeqb, SFltb, SFleb.
  destruct (SFcompare (Prim2SF a) (Prim2SF b)) as [c|] eqn:E.
  - rewrite (FloatFacts.SFcompare_antisym _ _ _ E). now destruct c.
  - destruct (Prim2SF a) as [sa|sa| |sa ma ea], (Prim2SF b) as [sb|sb| |sb mb eb];
      cbn in *; try discriminate;
      try (destruct sa; discriminate); try (destruct sb; discriminate).
Qed.

(** Whoever takes part in a true comparison is not a NaN. *)
Lemma ltb_not_nan (a b : float) :
  (a <? b) = true -> is_nan a = false /\ is_nan b = false.
Proof.
  unfold is_nan. rewrite !eqb_spec, ltb_spec. unfold SFeqb, SFltb.
  destruct (Prim2SF a) as [sa|sa| |sa ma ea], (Prim2SF b) as [sb|sb| |sb mb eb];
    cbn; try discriminate; intros _; split;
    repeat match goal with s : bool |- _ => destruct s end; cbn;
    rewrite ?Z.compare_refl, ?Pos.compare_cont_refl; reflexivity.
Qed.

Lemma leb_not_nan (a b : float) :
  (a <=? b) = true -> is_nan a = false /\ is_nan b = false.
Proof.
  unfold is_nan. rewrite !eqb_spec, leb_spec. unfold SFeqb, SFleb.
  destruct (Prim2SF a) as [sa|sa| |sa ma ea], (Prim2SF b) as [sb|sb| |sb mb eb];
    cbn; try discriminate; intros _; split;
    repeat match goal with s : bool |- _ => destruct s end; cbn;
    rewrite ?Z.compare_refl, ?Pos.compare_cont_refl; reflexivity.
Qed.

End FloatOrder.

(** * The classifier as a stream transform *)

Module StreamFacts.

Import AngleCalculator.
Open Scope float_scope.

Lemma get_control_state_eq (self : t) (angle : float) :
  get_control_state self angle
  = (ClassifierSpec.classify self angle, Some (ClassifierSpec.classify self angle)).
Proof.
  unfold get_control_state, ClassifierSpec.classify.
  now rewrite ClassifierFacts.right_threshold_value,
    ClassifierFacts.left_threshold_value.
Qed.

Lemma below_60_below_62 (a : float) : (a <? 60) = true -> (a <? 62) = true.
Proof. intros H. now apply (FloatOrder.ltb_trans a 60 62). Qed.

Lemma above_90_above_88 (a : float) : (90 <? a) = true -> (88 <? a) = true.
Proof. intros H. now apply (FloatOrder.ltb_trans 88 90 a). Qed.

(** Nothing is below a right threshold and above a left one. *)
Lemma between_thresholds (lo hi a : float) :
  (lo <? hi) = false -> (lo <? a) = true -> (a <? hi) = false.
Proof.
  intros Hc H. destruct (a <? hi) eqn:E; [|reflexivity].
  rewrite (FloatOrder.ltb_trans lo a hi H E) in Hc. discriminate.
Qed.

Ltac thresholds a :=
  destruct (a <? 60) eqn:H60; destruct (a <? 62) eqn:H62;
  destruct (88 <? a) eqn:H88; destruct (90 <? a) eqn:H90;
  cbn; rewrite ?H60, ?H62, ?H88, ?H90; cbn;
  rewrite ?H60, ?H62, ?H88, ?H90; try reflexivity;
  try (apply below_60_below_62 in H60; congruence);
  try (apply above_90_above_88 in H90; congruence);
  try (pose proof (between_thresholds 88 62 a eq_refl H88); congruence).

Lemma classify_stable (self : t) (angle : float) :
  ClassifierSpec.classify (Some (ClassifierSpec.classify self angle)) angle
  = ClassifierSpec.classify self angle.
Proof.
  unfold ClassifierSpec.classify.
  destruct self as [[ | | ]|]; cbn; thresholds angle.
Qed.

(** X1. A sample that is repeated is classified as it was the first time,
    whatever the memory before it; so a constant signal gives a constant
    output. *)
Theorem repeated_sample_is_stable (self : t) (angle : float) (n : nat) :
  get_control_state (snd (get_control_state self angle)) angle
  = get_control_state self angle
  /\ classify_all self (repeat angle (S n))
     = (repeat (fst (get_control_state self angle)) (S n),
        snd (get_control_state self angle)).
Proof.
  assert (Hstep : forall m,
             get_control_state (snd (get_control_state m angle)) angle
             = get_control_state m angle).
  { intros m. rewrite !get_control_state_eq. cbn [snd].
    now rewrite classify_stable. }
  split; [apply Hstep|].
  revert self. induction n as [|n IH]; intros self.
  - cbn. now destruct (get_control_state self angle).
  - change (repeat angle (S (S n))) with (angle :: repeat angle (S n)).
    cbn [classify_all].
    destruct (get_control_state self angle) as [s m] eqn:E.
    replace m with (snd (get_control_state self angle)) by now rewrite E.
    rewrite IH, Hstep, E. reflexivity.
Qed.

(** X2. The memory changes the answer only inside the two bands: a sample
    classified otherwise than from a fresh memory either lies in
    [[60, 62)] with the right press remembered and kept, or in [(88, 90]]
    with the left press remembered and kept; a fresh memory gives neutral
    there. *)
Theorem memory_matters_in_bands (self : t) (angle : float) :
  fst (get_control_state self angle) <> fst (get_control_state None angle) ->
  fst (get_control_state None angle) = NEUTRAL
  /\ ((self = Some RIGHT_CLICK
       /\ fst (get_control_state self angle) = RIGHT_CLICK
       /\ (60 <=? angle) = true /\ (angle <? 62) = true)
      \/ (self = Some LEFT_CLICK
          /\ fst (get_control_state self angle) = LEFT_CLICK
          /\ (88 <? angle) = true /\ (angle <=? 90) = true)).
Proof.
  rewrite !get_control_state_eq. cbn [fst]. unfold ClassifierSpec.classify.
  destruct self as [[ | | ]|]; cbn; try congruence.
  - (* left press remembered *)
    destruct (angle <? 60) eqn:H60; [congruence|].
    destruct (88 <? angle) eqn:H88; destruct (90 <? angle) eqn:H90;
      try congruence.
    + intros _. split; [reflexivity|]. right. repeat split.
      destruct (FloatOrder.ltb_not_nan _ _ H88) as [_ Hn].
      now apply FloatOrder.ltb_false_leb.
    + apply above_90_above_88 in H90. congruence.
  - (* right press remembered *)
    destruct (angle <? 60) eqn:H60; destruct (angle <? 62) eqn:H62;
      try congruence.
    + apply below_60_below_62 in H60. congruence.
    + destruct (90 <? angle) eqn:H90;
        [pose proof (between_thresholds 90 62 angle eq_refl H90); congruence|].
      intros _. split; [reflexivity|]. left. repeat split.
      destruct (FloatOrder.ltb_not_nan _ _ H62) as [Hn _].
      now apply FloatOrder.ltb_false_leb.
Qed.

Lemma memory_matters_in_bands_witness :
  fst (get_control_state None 61) = NEUTRAL
  /\ ((Some RIGHT_CLICK = Some RIGHT_CLICK
       /\ fst (get_control_state (Some RIGHT_CLICK) 61) = RIGHT_CLICK
       /\ (60 <=? 61) = true /\ (61 <? 62) = true)
      \/ (Some RIGHT_CLICK = Some LEFT_CLICK
          /\ fst (get_control_state (Some RIGHT_CLICK) 61) = LEFT_CLICK
          /\ (88 <? 61) = true /\ (61 <=? 90) = true)).
Proof.
  apply (memory_matters_in_bands (Some RIGHT_CLICK) 61). discriminate.
Defined.

(** X3. For a given memory the answer grows with the angle, in the order
    right press, neutral, left press. *)
Theorem classification_is_monotone (self : t) (a b : float) :
  (a <=? b) = true ->
  (rank (fst (get_control_state self a))
   <= rank (fst (get_control_state self b)))%nat.
Proof.
  intros Hab. rewrite !get_control_state_eq. cbn [fst].
  unfold ClassifierSpec.classify.
  assert (Hlt : forall t, (b <? t) = true -> (a <? t) = true)
    by (intros t; apply FloatOrder.leb_ltb_trans; exact Hab).
  assert (Hgt : forall t, (t <? a) = true -> (t <? b) = true)
    by (intros t H; apply (FloatOrder.ltb_leb_trans t a b); assumption).
  set (rt := ClassifierSpec.effective_right_threshold self).
  set (lt := ClassifierSpec.effective_left_threshold self).
  assert (Hc : (rt <? lt) = true /\ (lt <? rt) = false)
    by (destruct self as [[ | | ]|]; split; reflexivity).
  destruct Hc as [_ Hc].
  destruct (a <? rt) eqn:Ha; [cbn; lia|].
  destruct (b <? rt) eqn:Hb; [rewrite (Hlt rt Hb) in Ha; discriminate|].
  destruct (lt <? a) eqn:Ha'.
  - rewrite (Hgt lt Ha'). cbn. lia.
  - destruct (lt <? b); cbn; lia.
Qed.

Lemma classification_is_monotone_witness :
  (rank (fst (get_control_state (Some LEFT_CLICK) 59))
   <= rank (fst (get_control_state (Some LEFT_CLICK) 89)))%nat.
Proof.
  apply (classification_is_monotone (Some LEFT_CLICK) 59 89). reflexivity.
Defined.

End StreamFacts.

(** * More on arm keypoint extraction *)

Module PoseExtras.

Import PoseDetector.
Import ArmSpec.
Open Scope float_scope.

Lemma confidence_ok_not_nan (lm : Landmark) :
  confidence_ok lm = true -> is_nan (visibility lm) = false.
Proof.
  unfold confidence_ok. intros H. apply andb_prop in H as [H _].
  now apply FloatOrder.leb_not_nan in H.
Qed.

(** On numbers none of which is a NaN, Python's [min] is below each. *)
Lemma min3_le (a b c : float) :
  is_nan a = false -> is_nan b = false -> is_nan c = false ->
  (min3 a b c <=? a) = true /\ (min3 a b c <=? b) = true
  /\ (min3 a b c <=? c) = true.
Proof.
  intros Ha Hb Hc. unfold min3.
  destruct (b <? a) eqn:Hba.
  - destruct (c <? b) eqn:Hcb.
    + repeat split.
      * apply FloatOrder.ltb_leb. now apply (FloatOrder.ltb_trans c b a).
      * now apply FloatOrder.ltb_leb.
      * now apply FloatOrder.leb_refl.
    + repeat split.
      * now apply FloatOrder.ltb_leb.
      * now apply FloatOrder.leb_refl.
      * now apply FloatOrder.ltb_false_leb.
  - destruct (c <? a) eqn:Hca.
    + repeat split.
      * now apply FloatOrder.ltb_leb.
      * apply FloatOrder.ltb_leb. apply (FloatOrder.ltb_leb_trans c a b); [assumption|].
        now apply FloatOrder.ltb_false_leb.
      * now apply FloatOrder.leb_refl.
    + repeat split.
      * now apply FloatOrder.leb_refl.
      * now apply FloatOrder.ltb_false_leb.
      * now apply FloatOrder.ltb_false_leb.
Qed.

Lemma arm_landmarks_in (lms : PoseLandmarks) (si ei wi : nat)
    (s e w : Landmark) :
  arm_landmarks lms si ei wi = Some (s, e, w) ->
  nth_error lms si = Some s /\ nth_error lms ei = Some e
  /\ nth_error lms wi = Some w.
Proof.
  unfold arm_landmarks.
  destruct (nth_error lms si), (nth_error lms ei), (nth_error lms wi);
    try discriminate.
  now intros [= -> -> ->].
Qed.

Lemma usable_arm_confident (threshold : float) (lms : PoseLandmarks)
    (si ei wi : nat) (kp : ArmKeypoints) :
  forallb confidence_ok lms = true ->
  usable_arm threshold lms si ei wi = Some kp ->
  exists s e w : Landmark,
    nth_error lms si = Some s /\ nth_error lms ei = Some e
    /\ nth_error lms wi = Some w
    /\ kp = mkArmKeypoints (point_of s) (point_of e) (point_of w)
                           (min3 (visibility s) (visibility e) (visibility w))
    /\ (threshold <=? visibility s) = true
    /\ (threshold <=? visibility e) = true
    /\ (threshold <=? visibility w) = true.
Proof.
  intros Hok H.
  apply PoseFacts.usable_arm_inv in H as ([[s e] w] & Ha & -> & Ht).
  apply arm_landmarks_in in Ha as (Hs & He & Hw).
  rewrite forallb_forall in Hok.
  destruct (min3_le (visibility s) (visibility e) (visibility w))
    as (Ls & Le & Lw);
    try (apply confidence_ok_not_nan, Hok; eapply nth_error_In; eassumption).
  exists s, e, w. cbn in Ht |- *.
  repeat split; try assumption;
    eapply FloatOrder.leb_trans; eassumption.
Qed.

(** X4. On landmarks whose confidences lie in the unit interval, every one
    of the three points of a returned arm is seen with at least the
    threshold, and the points are those of the left arm (indices 11, 13,
    15) or of the right arm (12, 14, 16), in the order shoulder, elbow,
    wrist, with the minimum of the three confidences as the arm's. *)
Theorem returned_arm_is_confident (self : t) (lms : PoseLandmarks)
    (kp : ArmKeypoints) :
  forallb confidence_ok lms = true ->
  get_arm_keypoints self lms = Return (Some kp) ->
  exists (si ei wi : nat) (s e w : Landmark),
    ((si, ei, wi) = (11, 13, 15)%nat \/ (si, ei, wi) = (12, 14, 16)%nat)
    /\ nth_error lms si = Some s /\ nth_error lms ei = Some e
    /\ nth_error lms wi = Some w
    /\ kp = mkArmKeypoints (point_of s) (point_of e) (point_of w)
                           (min3 (visibility s) (visibility e) (visibility w))
    /\ (confidence_threshold self <=? visibility s) = true
    /\ (confidence_threshold self <=? visibility e) = true
    /\ (confidence_threshold self <=? visibility w) = true.
Proof.
  intros Hok H.
  assert (Hne : lms <> []) by (intros ->; discriminate H).
  rewrite (PoseFacts.get_arm_keypoints_eq self lms Hne Hok) in H.
  injection H as H. unfold select_arm in H.
  destruct (usable_arm _ lms LEFT_SHOULDER _ _) as [la|] eqn:Hl.
  - injection H as ->.
    destruct (usable_arm_confident _ _ _ _ _ _ Hok Hl)
      as (s & e & w & H1 & H2 & H3 & H4 & H5).
    exists 11%nat, 13%nat, 15%nat, s, e, w. auto 10.
  - destruct (usable_arm_confident _ _ _ _ _ _ Hok H)
      as (s & e & w & H1 & H2 & H3 & H4 & H5).
    exists 12%nat, 14%nat, 16%nat, s, e, w. auto 10.
Qed.

(** A left arm seen at 0.75, 0.5 and 0.625 with the threshold at 0.5: it
    is returned with confidence 0.5. *)
Lemma returned_arm_is_confident_witness :
  exists (si ei wi : nat) (s e w : Landmark),
    ((si, ei, wi) = (11, 13, 15)%nat \/ (si, ei, wi) = (12, 14, 16)%nat)
    /\ nth_error MoreSamples.unevenly_seen si = Some s
    /\ nth_error MoreSamples.unevenly_seen ei = Some e
    /\ nth_error MoreSamples.unevenly_seen wi = Some w
    /\ mkArmKeypoints (mkPoint 0 0 0) (mkPoint 1 0 0) (mkPoint 2 0 0) 0.5
       = mkArmKeypoints (point_of s) (point_of e) (point_of w)
                        (min3 (visibility s) (visibility e) (visibility w))
    /\ (confidence_threshold Samples.detector <=? visibility s) = true
    /\ (confidence_threshold Samples.detector <=? visibility e) = true
    /\ (confidence_threshold Samples.detector <=? visibility w) = true.
Proof.
  apply (returned_arm_is_confident Samples.detector MoreSamples.unevenly_seen);
    reflexivity.
Defined.

Lemma get_arm_keypoints_nonempty (self : t) (lms : PoseLandmarks) :
  lms <> [] ->
  get_arm_keypoints self lms
  = (left_arm <- _extract_arm_keypoints self lms
                   LEFT_SHOULDER LEFT_ELBOW LEFT_WRIST ;;
     if accepted self left_arm then Return left_arm
     else
       right_arm <- _extract_arm_keypoints self lms
                      RIGHT_SHOULDER RIGHT_ELBOW RIGHT_WRIST ;;
       if accepted self right_arm then Return right_arm
       else Return None).
Proof. destruct lms; [congruence | reflexivity]. Qed.

Lemma extract_short (self : t) (lms : PoseLandmarks) (si ei wi : nat) :
  (List.length lms <= Nat.max (Nat.max si ei) wi)%nat ->
  _extract_arm_keypoints self lms si ei wi = Return None.
Proof.
  intros H. unfold _extract_arm_keypoints.
  now rewrite (proj2 (Nat.leb_le _ _) H).
Qed.

(** X5. A landmark list that is not empty but has at most 15 entries gives
    no arm, whatever it holds and whatever the threshold; with 16 entries
    only the left arm can be returned. *)
Theorem short_landmark_lists (self : t) (lms : PoseLandmarks) :
  lms <> [] ->
  ((List.length lms <= 15)%nat -> get_arm_keypoints self lms = Return None)
  /\ ((List.length lms <= 16)%nat ->
      forall kp : ArmKeypoints,
        get_arm_keypoints self lms = Return (Some kp) ->
        exists arm : Landmark * Landmark * Landmark,
          arm_landmarks lms LEFT_SHOULDER LEFT_ELBOW LEFT_WRIST = Some arm
          /\ kp = arm_keypoints arm).
Proof.
  intros Hne. rewrite (get_arm_keypoints_nonempty self lms Hne).
  split.
  - intros H.
    rewrite !extract_short
      by (unfold LEFT_SHOULDER, LEFT_ELBOW, LEFT_WRIST,
            RIGHT_SHOULDER, RIGHT_ELBOW, RIGHT_WRIST; simpl Nat.max; lia).
    reflexivity.
  - intros H kp.
    rewrite (extract_short self lms RIGHT_SHOULDER RIGHT_ELBOW RIGHT_WRIST)
      by (unfold RIGHT_SHOULDER, RIGHT_ELBOW, RIGHT_WRIST; simpl Nat.max; lia).
    unfold _extract_arm_keypoints, arm_landmarks.
    destruct (Nat.leb _ _); [discriminate|].
    destruct (nth_error lms LEFT_SHOULDER) as [s|]; [|discriminate].
    destruct (nth_error lms LEFT_ELBOW) as [e|]; [|discriminate].
    destruct (nth_error lms LEFT_WRIST) as [w|]; [|discriminate].
    destruct (_ <? _); [discriminate|].
    unfold ArmKeypoints_new. destruct (negb _); [discriminate|].
    cbn. destruct (_ <=? _); [|discriminate].
    intros [= <-]. exists (s, e, w). split; reflexivity.
Qed.

Lemma short_landmark_lists_witness :
  get_arm_keypoints Samples.detector MoreSamples.fifteen = Return None.
Proof.
  apply (proj1 (short_landmark_lists Samples.detector MoreSamples.fifteen
                  ltac:(discriminate))).
  cbn. lia.
Defined.

(** X6. When the left arm is in the list and the minimum of its
    confidences is not below the threshold but is outside the unit interval
    (above 1, or a NaN), [ValueError] is raised: the right arm is not tried
    and nothing is returned. *)
Theorem invalid_confidence_raises (self : t) (lms : PoseLandmarks)
    (arm : Landmark * Landmark * Landmark) :
  arm_landmarks lms LEFT_SHOULDER LEFT_ELBOW LEFT_WRIST = Some arm ->
  (arm_confidence arm <? confidence_threshold self) = false ->
  (0 <=? arm_confidence arm) && (arm_confidence arm <=? 1) = false ->
  get_arm_keypoints self lms = Raise ValueError.
Proof.
  destruct arm as [[s e] w]. intros Ha Hlt Hbad.
  apply arm_landmarks_in in Ha as (Hs & He & Hw).
  assert (Hlen : (15 < List.length lms)%nat)
    by (apply nth_error_Some; unfold LEFT_WRIST in Hw; congruence).
  rewrite get_arm_keypoints_nonempty
    by (intros ->; cbn in Hlen; lia).
  unfold _extract_arm_keypoints at 1.
  replace (Nat.leb (List.length lms)
             (Nat.max (Nat.max LEFT_SHOULDER LEFT_ELBOW) LEFT_WRIST))
    with false
    by (symmetry; apply Nat.leb_gt;
        unfold LEFT_SHOULDER, LEFT_ELBOW, LEFT_WRIST; simpl Nat.max; lia).
  rewrite Hs, He, Hw. cbn in Hlt, Hbad |- *.
  rewrite Hlt. unfold ArmKeypoints_new. rewrite Hbad. reflexivity.
Qed.

(** The left shoulder seen with a NaN. *)
Lemma invalid_confidence_raises_witness :
  get_arm_keypoints Samples.detector MoreSamples.shoulder_unseen
  = Raise ValueError.
Proof.
  apply (invalid_confidence_raises Samples.detector MoreSamples.shoulder_unseen
           (mkLandmark 0.5 0.5 0 nan, mkLandmark 0.5 0.5 0 0.9375,
            mkLandmark 0.5 0.5 0 0.9375));
    reflexivity.
Defined.

End PoseExtras.

(** * The mouse controller and the buttons *)

Module DeviceFacts.

Import PyAutoGUI.
Import Device.

Ltac crush_mouse :=
  repeat match goal with
         | mc : MouseController.t |- _ => destruct mc as [? ? ?]
         | w : PyAutoGUI.t |- _ => destruct w as [? ?]
         end;
  unfold consistent, in_sync, MouseController.set_state,
    MouseController._transition_to_state, MouseController.release_all,
    MouseController.reset_error_count, invoke in *;
  cbn in *.

Ltac crush_buttons :=
  cbn;
  repeat match goal with
         | |- context [Nat.leb ?a ?b] => destruct (Nat.leb a b); cbn
         end;
  repeat match goal with
         | |- context [pressed ?b ?log] => destruct (pressed b log); cbn
         end;
  try reflexivity; try discriminate.

Lemma set_state_consistent (mc : MouseController.t) (s : ControlState)
    (w : PyAutoGUI.t) :
  consistent mc w = true ->
  consistent (snd (fst (MouseController.set_state mc s w)))
             (snd (MouseController.set_state mc s w)) = true.
Proof.
  crush_mouse.
  match goal with
  | |- context [ControlState_eqb s ?c] => destruct s, c
  end;
    match goal with
    | fs : list bool |- _ => destruct fs as [|[|] [|[|] ?]]
    end; crush_buttons.
Qed.

Lemma release_all_consistent (mc : MouseController.t) (w : PyAutoGUI.t) :
  consistent mc w = true ->
  consistent (fst (MouseController.release_all mc w))
             (snd (MouseController.release_all mc w)) = true.
Proof.
  crush_mouse.
  match goal with
  | c : ControlState |- _ => destruct c
  end;
    match goal with
    | fs : list bool |- _ => destruct fs as [|[|] [|[|] ?]]
    end; crush_buttons.
Qed.

Lemma step_consistent (c : command) (st : MouseController.t * PyAutoGUI.t) :
  consistent (fst st) (snd st) = true ->
  consistent (fst (step c st)) (snd (step c st)) = true.
Proof.
  destruct st as [mc w]. cbn [fst snd]. intros H. destruct c as [s| |]; cbn [step].
  - pose proof (set_state_consistent mc s w H) as H'.
    destruct (MouseController.set_state mc s w) as [[r mc'] w']. exact H'.
  - pose proof (release_all_consistent mc w H) as H'.
    destruct (MouseController.release_all mc w) as [mc' w']. exact H'.
  - exact H.
Qed.

Lemma steps_consistent (cs : list command) :
  forall st : MouseController.t * PyAutoGUI.t,
    consistent (fst st) (snd st) = true ->
    consistent (fst (steps cs st)) (snd (steps cs st)) = true.
Proof.
  induction cs as [|c cs IH]; intros st H; cbn; [exact H|].
  apply IH, step_consistent, H.
Qed.

Lemma steps_app (a b : list command) (st : MouseController.t * PyAutoGUI.t) :
  steps (a ++ b) st = steps b (steps a st).
Proof. revert st. induction a as [|c a IH]; intros st; cbn; auto. Qed.

Lemma consistent_exclusive (mc : MouseController.t) (w : PyAutoGUI.t) :
  consistent mc w = true ->
  pressed left (performed w) && pressed right (performed w) = false
  /\ (MouseController._current_state mc = NEUTRAL ->
      pressed left (performed w) = false
      /\ pressed right (performed w) = false).
Proof.
  intros H. unfold consistent in H.
  destruct (pressed left _), (pressed right _),
    (MouseController._current_state mc);
    cbn in H; try discriminate; repeat split; congruence.
Qed.

(** X7. Whatever calls are made on a mouse controller that starts with no
    button down, and whichever of the device's calls fail, no button is
    ever down that the controller does not take to be held: the two
    buttons are never down together, and none is down while the controller
    is in the neutral state. *)
Theorem buttons_never_untracked (cs : list command) (faults : list bool) :
  let st := steps cs (MouseController.__init__, PyAutoGUI.mk [] faults) in
  consistent (fst st) (snd st) = true
  /\ pressed left (performed (snd st)) && pressed right (performed (snd st))
     = false
  /\ (MouseController._current_state (fst st) = NEUTRAL ->
      pressed left (performed (snd st)) = false
      /\ pressed right (performed (snd st)) = false).
Proof.
  intros st.
  assert (H : consistent (fst st) (snd st) = true)
    by (apply steps_consistent; reflexivity).
  split; [exact H|]. exact (consistent_exclusive _ _ H).
Qed.

(** X8. [release_all] makes at most two calls and never raises. When both
    succeed, no button is down afterwards, whatever was down before, and the
    controller is neutral with no error counted; when one fails, the
    controller's state and error count are as before. *)
Theorem release_all_outcome (mc : MouseController.t) (w : PyAutoGUI.t) :
  let mc' := fst (MouseController.release_all mc w) in
  let w' := snd (MouseController.release_all mc w) in
  (List.length (performed w') <= List.length (performed w) + 2)%nat
  /\ ((List.length (performed w') = List.length (performed w) + 2)%nat ->
      pressed left (performed w') = false
      /\ pressed right (performed w') = false
      /\ mc' = MouseController.mk NEUTRAL 0 (MouseController._max_errors mc))
  /\ ((List.length (performed w') < List.length (performed w) + 2)%nat ->
      mc' = mc).
Proof.
  crush_mouse.
  match goal with
  | fs : list bool |- _ => destruct fs as [|[|] [|[|] ?]]
  end; cbn; repeat split; intros; try reflexivity; try lia.
Qed.

(** Held left with a sound device: afterwards nothing is down. *)
Lemma release_all_outcome_witness :
  pressed left
    (performed (snd (MouseController.release_all
                       (MouseController.mk LEFT_CLICK 2 5)
                       (PyAutoGUI.mk [mouseDown left] [])))) = false
  /\ pressed right
       (performed (snd (MouseController.release_all
                          (MouseController.mk LEFT_CLICK 2 5)
                          (PyAutoGUI.mk [mouseDown left] [])))) = false
  /\ fst (MouseController.release_all
            (MouseController.mk LEFT_CLICK 2 5)
            (PyAutoGUI.mk [mouseDown left] []))
     = MouseController.mk NEUTRAL 0 5.
Proof.
  apply (proj1 (proj2 (release_all_outcome
                         (MouseController.mk LEFT_CLICK 2 5)
                         (PyAutoGUI.mk [mouseDown left] [])))).
  reflexivity.
Defined.

(** Left pressed, then a change to right whose press fails, then
    neutral: nothing is down at the end. *)
Lemma buttons_never_untracked_witness :
  pressed left
    (performed
       (snd (steps [do_set_state LEFT_CLICK; do_set_state RIGHT_CLICK;
                    do_set_state NEUTRAL]
               (MouseController.__init__,
                PyAutoGUI.mk [] [false; false; true])))) = false
  /\ pressed right
       (performed
          (snd (steps [do_set_state LEFT_CLICK; do_set_state RIGHT_CLICK;
                       do_set_state NEUTRAL]
                  (MouseController.__init__,
                   PyAutoGUI.mk [] [false; false; true])))) = false.
Proof.
  apply (proj2 (proj2 (buttons_never_untracked
                         [do_set_state LEFT_CLICK; do_set_state RIGHT_CLICK;
                          do_set_state NEUTRAL]
                         [false; false; true]))).
  reflexivity.
Defined.

End DeviceFacts.

(** * The control loop and the buttons *)

Module LoopExtras.

Import ApplicationController.
Import Lifecycle.
Open Scope float_scope.

Lemma drives_refl (self : t) : drives self self [].
Proof. reflexivity. Qed.

Lemma drives_trans (a b c : t) (cs1 cs2 : list Device.command) :
  drives a b cs1 -> drives b c cs2 -> drives a c (cs1 ++ cs2).
Proof.
  unfold drives. intros H1 H2. now rewrite DeviceFacts.steps_app, <- H1.
Qed.

Lemma update_drives (self : t) (c : ControlState) :
  drives self (_update_mouse_control self c) [Device.do_set_state c].
Proof.
  unfold drives, _update_mouse_control. cbn.
  now destruct (MouseController.set_state _ _ _) as [[[u|e] m] w].
Qed.

Lemma set_neutral_drives (self : t) :
  exists cs, drives self (_set_neutral_state self) cs.
Proof.
  unfold _set_neutral_state. destruct (negb _).
  - exists [Device.do_set_state NEUTRAL]. unfold drives. cbn.
    now destruct (MouseController.set_state _ _ _) as [[[u|e] m] w].
  - exists []. reflexivity.
Qed.

Lemma toggle_drives (self : t) :
  exists cs, drives self (toggle_pose_control self) cs.
Proof.
  unfold toggle_pose_control. destruct (negb (negb _)).
  - exists [Device.do_release_all]. unfold drives. cbn.
    now destruct (MouseController.release_all _ _) as [m w].
  - exists []. reflexivity.
Qed.

Lemma key_drives (self : t) (key : option string) :
  exists cs, drives self (_handle_keyboard_input self key) cs.
Proof.
  unfold _handle_keyboard_input. destruct key as [k|]; [|exists []; reflexivity].
  destruct (_ || _); [exists []; reflexivity|].
  destruct (k =? "space")%string; [apply toggle_drives|].
  destruct (k =? "r")%string; [|exists []; reflexivity].
  exists [Device.do_reset_error_count]. reflexivity.
Qed.

Section WithLibrary.

Variable arccos : float -> float.
Variable degrees : float -> float.

Lemma frame_drives (self : t)
    (frame : option (option PoseDetector.PoseLandmarks)) :
  exists cs, drives self (snd (_process_frame arccos degrees self frame)) cs.
Proof.
  unfold _process_frame.
  destruct frame as [landmarks|]; [|exists []; reflexivity].
  destruct (pose_control_enabled _); [|apply set_neutral_drives].
  unfold _process_pose_detection.
  destruct landmarks as [lms|]; [|apply set_neutral_drives].
  destruct (PoseDetector.get_arm_keypoints _ lms) as [[kp|]|e]; cbn [bind];
    [|apply set_neutral_drives|exists []; reflexivity].
  destruct (AngleCalculator.calculate_elbow_angle _ _ _ _ _) as [a|[ | | ]];
    try (exists []; reflexivity); [|apply set_neutral_drives].
  destruct (AngleCalculator.is_angle_valid a); [|exists []; reflexivity].
  destruct (AngleCalculator.get_control_state _ a) as [c calc].
  exists ([] ++ [Device.do_set_state c]). cbn [snd].
  eapply drives_trans; [|apply update_drives]. reflexivity.
Qed.

Lemma tick_drives (self : t)
    (input : option (option PoseDetector.PoseLandmarks) * option string) :
  exists cs, drives self (tick arccos degrees self input) cs.
Proof.
  destruct input as [frame key]. unfold tick.
  destruct (frame_drives self frame) as [cs1 H1].
  destruct (_process_frame arccos degrees self frame) as [b self1].
  destruct (key_drives self1 key) as [cs2 H2].
  exists (cs1 ++ cs2). eapply drives_trans; eassumption.
Qed.

Lemma loop_drives
    (inputs : list (option (option PoseDetector.PoseLandmarks) * option string)) :
  forall self : t, exists cs, drives self (loop arccos degrees self inputs) cs.
Proof.
  induction inputs as [|i inputs IH]; intros self; cbn;
    [exists []; reflexivity|].
  destruct (_running self); [|exists []; reflexivity].
  destruct (tick_drives self i) as [cs1 H1].
  destruct (IH (tick arccos degrees self i)) as [cs2 H2].
  exists (cs1 ++ cs2). eapply drives_trans; eassumption.
Qed.

(** X9. Over a whole run of the loop, from the initial controller and on
    any device, the mouse is driven through [set_state], [release_all] and
    [reset_error_count] alone; so at the end of every run no button is down
    that the mouse controller does not take to be held, and the two buttons
    are never down together. *)
Theorem run_keeps_buttons_tracked
    (pd : PoseDetector.t) (faults : list bool)
    (inputs : list (option (option PoseDetector.PoseLandmarks) * option string)) :
  let self := initialize pd (PyAutoGUI.mk [] faults) in
  let self' := run arccos degrees self inputs in
  (exists cs : list Device.command, drives self self' cs)
  /\ Device.consistent (mouse_controller self') (device self') = true
  /\ Device.pressed PyAutoGUI.left (PyAutoGUI.performed (device self'))
     && Device.pressed PyAutoGUI.right (PyAutoGUI.performed (device self'))
     = false.
Proof.
  intros self self'.
  assert (H : exists cs, drives self self' cs).
  { unfold self', run.
    destruct (loop_drives inputs
                (mk (system_state self) (pose_detector self)
                    (mouse_controller self) (angle_calculator self) true
                    (device self))) as [cs H].
    exists cs. exact H. }
  split; [exact H|]. destruct H as [cs H]. unfold drives in H.
  assert (H1 : Device.consistent (mouse_controller self') (device self') = true).
  { change (Device.consistent
              (fst (mouse_controller self', device self'))
              (snd (mouse_controller self', device self')) = true).
    rewrite H. apply DeviceFacts.steps_consistent. reflexivity. }
  split; [exact H1|]. exact (proj1 (DeviceFacts.consistent_exclusive _ _ H1)).
Qed.

End WithLibrary.

End LoopExtras.

(** * More on the control loop *)

Module ControllerExtras.

Import ApplicationController.
Import Lifecycle.
Open Scope float_scope.

Ltac open_controller self :=
  destruct self as [[en cur ang err] pd [mcur mcnt mmax] calc running
                      [log faults]].

Lemma sound_spec (self : t) :
  sound self = true
  <-> PyAutoGUI.faults (device self) = []
      /\ MouseController._error_count (mouse_controller self) = 0%nat
      /\ error_count (system_state self) = 0%nat
      /\ current_control_state (system_state self)
         = MouseController._current_state (mouse_controller self)
      /\ Device.in_sync (mouse_controller self) (device self) = true.
Proof.
  unfold sound. rewrite !andb_true_iff, !Nat.eqb_eq.
  split.
  - intros ((((Hf & Hc) & He) & Hs) & Hi).
    destruct (PyAutoGUI.faults (device self)); [|discriminate].
    destruct (ControlState_eqb_spec
                (current_control_state (system_state self))
                (MouseController._current_state (mouse_controller self)));
      [auto|discriminate].
  - intros (Hf & Hc & He & Hs & Hi). rewrite Hf, Hs.
    now rewrite ControlState_eqb_refl.
Qed.

Ltac crush_sound :=
  unfold Device.in_sync, _update_mouse_control, _set_neutral_state,
    toggle_pose_control, MouseController.set_state,
    MouseController._transition_to_state, MouseController.release_all,
    MouseController.reset_error_count, PyAutoGUI.invoke, set_state_raises in *;
  cbn in *;
  repeat match goal with
         | H : context [Device.pressed ?b ?l] |- _ =>
             destruct (Device.pressed b l); cbn in *
         | |- context [Device.pressed ?b ?l] =>
             destruct (Device.pressed b l); cbn in *
         end;
  repeat split; try reflexivity; try discriminate; try congruence.

Lemma update_sound (self : t) (c : ControlState) :
  sound self = true ->
  sound (_update_mouse_control self c) = true
  /\ pose_control_enabled (system_state (_update_mouse_control self c))
     = pose_control_enabled (system_state self).
Proof.
  rewrite !sound_spec. open_controller self. cbn.
  intros (-> & -> & -> & -> & Hi).
  destruct mcur, c; crush_sound.
Qed.

Lemma set_neutral_sound (self : t) :
  sound self = true -> sound (_set_neutral_state self) = true.
Proof.
  rewrite !sound_spec. open_controller self. cbn.
  intros (-> & -> & -> & -> & Hi).
  destruct mcur; crush_sound.
Qed.

Lemma toggle_sound (self : t) :
  sound self = true -> sound (toggle_pose_control self) = true.
Proof.
  rewrite !sound_spec. open_controller self. cbn.
  intros (-> & -> & -> & -> & Hi).
  destruct mcur, en; crush_sound.
Qed.

Lemma key_sound (self : t) (key : option string) :
  sound self = true -> sound (_handle_keyboard_input self key) = true.
Proof.
  intros H. unfold _handle_keyboard_input.
  destruct key as [k|]; [|exact H].
  destruct (_ || _); [exact H|].
  destruct (k =? "space")%string; [now apply toggle_sound|].
  destruct (k =? "r")%string; [|exact H].
  revert H. rewrite !sound_spec. open_controller self. cbn.
  intros (-> & -> & -> & -> & Hi). crush_sound.
Qed.

Section WithLibrary.

Variable arccos : float -> float.
Variable degrees : float -> float.

Lemma frame_sound (self : t)
    (frame : option (option PoseDetector.PoseLandmarks)) :
  sound self = true ->
  sound (snd (_process_frame arccos degrees self frame)) = true
  /\ pose_control_enabled
       (system_state (snd (_process_frame arccos degrees self frame)))
     = pose_control_enabled (system_state self).
Proof.
  intros H.
  assert (Hn : sound (_set_neutral_state self) = true
               /\ pose_control_enabled (system_state (_set_neutral_state self))
                  = pose_control_enabled (system_state self)).
  { split; [now apply set_neutral_sound|].
    apply ControllerFacts.set_neutral_state_frame. }
  unfold _process_frame.
  destruct frame as [landmarks|]; [|now split].
  destruct (pose_control_enabled (system_state self)) eqn:Hen;
    [|exact Hn].
  unfold _process_pose_detection.
  destruct landmarks as [lms|]; [|exact Hn].
  destruct (PoseDetector.get_arm_keypoints _ lms) as [[kp|]|e]; cbn [bind snd];
    [|exact Hn|now split].
  destruct (AngleCalculator.calculate_elbow_angle _ _ _ _ _) as [a|[ | | ]];
    cbn [snd]; try exact Hn; try (now split).
  destruct (AngleCalculator.is_angle_valid a); [|now split].
  destruct (AngleCalculator.get_control_state _ a) as [c calc]. cbn [snd].
  match goal with
  | |- sound (_update_mouse_control ?s c) = true /\ _ =>
      destruct (update_sound s c) as [H1 H2]; [exact H|]
  end.
  split; [exact H1|]. rewrite H2. cbn. exact Hen.
Qed.

Lemma tick_sound (self : t)
    (input : option (option PoseDetector.PoseLandmarks) * option string) :
  sound self = true -> sound (tick arccos degrees self input) = true.
Proof.
  destruct input as [frame key]. intros H. unfold tick.
  destruct (frame_sound self frame H) as [H1 _].
  destruct (_process_frame arccos degrees self frame) as [b self1].
  now apply key_sound.
Qed.

Lemma loop_sound
    (inputs : list (option (option PoseDetector.PoseLandmarks) * option string)) :
  forall self : t,
    sound self = true -> sound (loop arccos degrees self inputs) = true.
Proof.
  induction inputs as [|i inputs IH]; intros self H; cbn; [exact H|].
  destruct (_running self); [|exact H].
  now apply IH, tick_sound.
Qed.

Lemma frames_sound (fs : list (option (option PoseDetector.PoseLandmarks))) :
  forall self : t,
    sound self = true ->
    sound (frames arccos degrees self fs) = true
    /\ pose_control_enabled (system_state (frames arccos degrees self fs))
       = pose_control_enabled (system_state self).
Proof.
  induction fs as [|f fs IH]; intros self H; cbn; [now split|].
  destruct (frame_sound self f H) as [H1 H2].
  destruct (IH _ H1) as [H3 H4]. split; [exact H3|congruence].
Qed.

(** X10. On a device that never fails, every run of the loop from the
    initial controller ends in step with the device: no error is counted
    by the loop or by the mouse controller, the loop's state is the mouse
    controller's, and the buttons down are exactly the one this state
    stands for. Frames alone never switch pose control off there. *)
Theorem sound_device_stays_in_step (pd : PoseDetector.t)
    (inputs : list (option (option PoseDetector.PoseLandmarks) * option string))
    (fs : list (option (option PoseDetector.PoseLandmarks))) :
  let self := initialize pd (PyAutoGUI.mk [] []) in
  let self' := run arccos degrees self inputs in
  error_count (system_state self') = 0%nat
  /\ MouseController._error_count (mouse_controller self') = 0%nat
  /\ current_control_state (system_state self')
     = MouseController._current_state (mouse_controller self')
  /\ Device.in_sync (mouse_controller self') (device self') = true
  /\ pose_control_enabled (system_state (frames arccos degrees self fs)) = true.
Proof.
  intros self self'.
  assert (H : sound self' = true).
  { unfold self', run.
    match goal with
    | |- sound (stop ?s) = true =>
        assert (Hs : sound s = true) by (apply loop_sound; reflexivity);
        revert Hs; generalize s
    end.
    intros s. rewrite !sound_spec. cbn. auto. }
  apply sound_spec in H as (_ & Hc & He & Hs & Hi).
  repeat split; try assumption.
  destruct (frames_sound fs self eq_refl) as [_ ->]. reflexivity.
Qed.

(** X11. An enabled loop does nothing at all on an image on which
    [get_arm_keypoints] raises or whose angle is not valid, and on a turn
    in which the camera gives no frame: the controller is as before, so a
    button that is held stays held. The frame counts as failed in the first
    and the last case. *)
Theorem ignored_frames_change_nothing (self : t) :
  (forall landmarks : option PoseDetector.PoseLandmarks,
      pose_control_enabled (system_state self) = true ->
      ignored arccos degrees (pose_detector self) landmarks = true ->
      snd (_process_frame arccos degrees self (Some landmarks)) = self
      /\ fst (_process_frame arccos degrees self (Some landmarks))
         = match landmarks with
           | Some lms =>
               match PoseDetector.get_arm_keypoints (pose_detector self) lms with
               | Raise _ => false
               | Return _ => true
               end
           | None => true
           end)
  /\ _process_frame arccos degrees self None = (false, self).
Proof.
  split; [|reflexivity].
  intros landmarks Hen. unfold ignored, _process_frame, _process_pose_detection.
  rewrite Hen. destruct landmarks as [lms|]; [|discriminate].
  destruct (PoseDetector.get_arm_keypoints _ lms) as [[kp|]|e]; cbn [bind];
    try discriminate; [|now split].
  destruct (AngleCalculator.calculate_elbow_angle _ _ _ _ _) as [a|e];
    [|discriminate].
  destruct (AngleCalculator.is_angle_valid a); [discriminate|now split].
Qed.

(** X12. A turn in which [q] or [esc] is pressed is the last one: the
    inputs after it are not looked at, and the loop is left not running. *)
Theorem quit_key_ends_the_loop
    (pre post : list (option (option PoseDetector.PoseLandmarks)
                      * option string))
    (f : option (option PoseDetector.PoseLandmarks)) (k : string) :
  k = "q"%string \/ k = "esc"%string ->
  forall self : t,
    loop arccos degrees self (pre ++ (f, Some k) :: post)
    = loop arccos degrees self (pre ++ [(f, Some k)])
    /\ _running (loop arccos degrees self (pre ++ (f, Some k) :: post)) = false.
Proof.
  intros Hk.
  assert (Hstop : forall self, _running (tick arccos degrees self (f, Some k)) = false).
  { intros self. unfold tick.
    destruct (_process_frame arccos degrees self f) as [b s1].
    unfold _handle_keyboard_input.
    destruct Hk as [-> | ->]; reflexivity. }
  induction pre as [|i pre IH]; intros self.
  - cbn [app loop]. destruct (_running self) eqn:Hr; [|now split].
    specialize (Hstop self).
    destruct post as [|p post]; cbn [loop]; rewrite ?Hstop; now split.
  - cbn [app loop]. destruct (_running self) eqn:Hr; [apply IH|now split].
Qed.

End WithLibrary.

(** On a running controller, with [q] pressed in the first turn: the
    second turn does not take place. *)
Lemma quit_key_ends_the_loop_witness :
  loop (fun v => v) (fun v => v) Samples.holding_left
    ([] ++ (None, Some "q"%string) :: [(Some None, None)])
  = loop (fun v => v) (fun v => v) Samples.holding_left
      ([] ++ [(None, Some "q"%string)])
  /\ _running
       (loop (fun v => v) (fun v => v) Samples.holding_left
          ([] ++ (None, Some "q"%string) :: [(Some None, None)])) = false.
Proof.
  apply (quit_key_ends_the_loop (fun v => v) (fun v => v) []
           [(Some None, None)] None "q"%string (or_introl eq_refl)).
Defined.

(** The left button is held and the left shoulder comes with a NaN
    confidence: the frame fails and the controller is untouched. *)
Lemma ignored_frames_change_nothing_witness :
  snd (_process_frame (fun v => v) (fun v => v) Samples.holding_left
         (Some (Some MoreSamples.shoulder_unseen)))
  = Samples.holding_left
  /\ fst (_process_frame (fun v => v) (fun v => v) Samples.holding_left
            (Some (Some MoreSamples.shoulder_unseen)))
     = false.
Proof.
  apply (proj1 (ignored_frames_change_nothing (fun v => v) (fun v => v)
                  Samples.holding_left)
           (Some MoreSamples.shoulder_unseen));
    reflexivity.
Defined.

End ControllerExtras.

(** * Keys, toggling and failures in a row *)

Module KeyFacts.

Import ApplicationController.
Import Lifecycle.

Lemma handle_keyboard_input_perform (self : t) (key : option string) :
  _handle_keyboard_input self key = perform self (action_of_key key).
Proof.
  unfold _handle_keyboard_input, action_of_key, perform.
  destruct key as [k|]; [|reflexivity].
  destruct (_ || _); [reflexivity|].
  destruct (k =? "space")%string; [reflexivity|].
  destruct (k =? "r")%string eqn:E; [|reflexivity].
  apply String.eqb_eq in E. now subst.
Qed.

(** The key table, checked on each of the 256 values of the low byte. *)
Lemma action_of_byte (n : nat) :
  (n < 256)%nat ->
  action_of_key (DisplayManager.handle_key_input (Z.of_nat n))
  = action_of_code (Z.of_nat n).
Proof.
  intros H.
  assert (Hall : forallb
                   (fun n =>
                      match action_of_key
                              (DisplayManager.handle_key_input (Z.of_nat n)),
                            action_of_code (Z.of_nat n) with
                      | quit, quit | toggle, toggle | reset, reset
                      | nothing, nothing => true
                      | _, _ => false
                      end) (seq 0 256) = true) by (vm_compute; reflexivity).
  rewrite forallb_forall in Hall.
  specialize (Hall n ltac:(apply in_seq; lia)).
  destruct (action_of_key _), (action_of_code _); congruence.
Qed.

Lemma low_byte (raw : Z) :
  exists n : nat, (n < 256)%nat /\ Z.land raw 255 = Z.of_nat n.
Proof.
  exists (Z.to_nat (Z.land raw 255)).
  assert (H : (0 <= Z.land raw 255 < 256)%Z).
  { change 255%Z with (Z.ones 8). rewrite Z.land_ones by lia.
    apply Z.mod_pos_bound. lia. }
  split; [lia|]. now rewrite Z2Nat.id by lia.
Qed.

Lemma land_idem (raw : Z) : Z.land (Z.land raw 255) 255 = Z.land raw 255.
Proof. now rewrite <- Z.land_assoc. Qed.

(** X13. Of the raw key code only the low byte counts: 27 ([esc]) and 113
    ([q]) stop the loop, 32 (the space bar) toggles pose control, 114 ([r])
    resets; every other code, the upper case letters and "no key" (-1)
    among them, leaves the controller as it is. *)
Theorem key_codes (self : t) (raw : Z) :
  on_key_code self raw = perform self (action_of_code raw)
  /\ on_key_code self (-1) = self
  /\ on_key_code self (DisplayManager.ord "R"%char) = self.
Proof.
  split; [|split; reflexivity].
  unfold on_key_code. rewrite handle_keyboard_input_perform. f_equal.
  destruct (low_byte raw) as (n & Hn & E).
  assert (E1 : DisplayManager.handle_key_input raw
               = DisplayManager.handle_key_input (Z.of_nat n)).
  { unfold DisplayManager.handle_key_input.
    now rewrite <- E, land_idem. }
  assert (E2 : action_of_code raw = action_of_code (Z.of_nat n)).
  { unfold action_of_code. now rewrite <- E, land_idem. }
  rewrite E1, E2. now apply action_of_byte.
Qed.

Section WithLibrary.

Variable arccos : float -> float.
Variable degrees : float -> float.

Lemma idle_frame (self : t)
    (frame : option (option PoseDetector.PoseLandmarks)) :
  pose_control_enabled (system_state self) = false ->
  current_control_state (system_state self) = NEUTRAL ->
  snd (_process_frame arccos degrees self frame) = self.
Proof.
  intros Hd Hn. unfold _process_frame.
  destruct frame as [landmarks|]; [|reflexivity].
  rewrite Hd. cbn [snd]. unfold _set_neutral_state. now rewrite Hn.
Qed.

Lemma idle_frames (fs : list (option (option PoseDetector.PoseLandmarks)))
    (self : t) :
  pose_control_enabled (system_state self) = false ->
  current_control_state (system_state self) = NEUTRAL ->
  frames arccos degrees self fs = self.
Proof.
  intros Hd Hn. induction fs as [|f fs IH]; cbn; [reflexivity|].
  now rewrite idle_frame.
Qed.

(** X14. Switching pose control off with the toggle key sets the loop's
    state to neutral whether or not the release of the buttons succeeded,
    and from then on frames do nothing at all: no call goes to the device,
    so a button that a failed release left down stays down. Toggling twice
    gives the flag back; the error count and the classifier's memory are
    never touched by the toggle. *)
Theorem toggle_off_freezes (self : t)
    (fs : list (option (option PoseDetector.PoseLandmarks))) :
  (pose_control_enabled (system_state self) = true ->
   pose_control_enabled (system_state (toggle_pose_control self)) = false
   /\ current_control_state (system_state (toggle_pose_control self)) = NEUTRAL
   /\ frames arccos degrees (toggle_pose_control self) fs
      = toggle_pose_control self)
  /\ pose_control_enabled
       (system_state (toggle_pose_control (toggle_pose_control self)))
     = pose_control_enabled (system_state self)
  /\ error_count (system_state (toggle_pose_control self))
     = error_count (system_state self)
  /\ angle_calculator (toggle_pose_control self) = angle_calculator self.
Proof.
  assert (Hflag : forall s,
             pose_control_enabled (system_state (toggle_pose_control s))
             = negb (pose_control_enabled (system_state s))).
  { intros s. unfold toggle_pose_control.
    destruct (pose_control_enabled (system_state s)); cbn; [|reflexivity].
    now destruct (MouseController.release_all _ _). }
  split; [intros Hen; split; [|split] | split; [|split]].
  - now rewrite Hflag, Hen.
  - unfold toggle_pose_control. rewrite Hen. cbn.
    now destruct (MouseController.release_all _ _).
  - apply idle_frames.
    + now rewrite Hflag, Hen.
    + unfold toggle_pose_control. rewrite Hen. cbn.
      now destruct (MouseController.release_all _ _).
  - rewrite !Hflag. apply negb_involutive.
  - unfold toggle_pose_control.
    destruct (pose_control_enabled (system_state self)); cbn; [|reflexivity].
    now destruct (MouseController.release_all _ _).
  - unfold toggle_pose_control.
    destruct (pose_control_enabled (system_state self)); cbn; [|reflexivity].
    now destruct (MouseController.release_all _ _).
Qed.

End WithLibrary.

(** The left button is held and its release fails when pose control is
    switched off: the loop's state is neutral, the button is still down, and
    two frames later nothing has changed. *)
Lemma toggle_off_freezes_witness :
  let self :=
    set_mouse Samples.holding_left (mouse_controller Samples.holding_left)
      (PyAutoGUI.mk [PyAutoGUI.mouseDown PyAutoGUI.left] [true]) in
  current_control_state (system_state (toggle_pose_control self)) = NEUTRAL
  /\ Device.pressed PyAutoGUI.left
       (PyAutoGUI.performed (device (toggle_pose_control self))) = true
  /\ frames (fun v => v) (fun v => v) (toggle_pose_control self)
       [Some None; Some (Some Samples.seen)]
     = toggle_pose_control self.
Proof.
  intros self.
  destruct (proj1 (toggle_off_freezes (fun v => v) (fun v => v) self
                     [Some None; Some (Some Samples.seen)]) eq_refl)
    as (_ & H2 & H3).
  split; [exact H2|]. split; [reflexivity|exact H3].
Defined.

Import MouseController.

Lemma failing_set_state (mc : MouseController.t) (s : ControlState)
    (log : list PyAutoGUI.call) (rest : list bool) :
  ControlState_eqb s (_current_state mc) = false ->
  set_state mc s (PyAutoGUI.mk log (true :: rest))
  = (if Nat.leb (_max_errors mc) (S (_error_count mc))
     then Raise MouseControlError else Return tt,
     mk (_current_state mc) (S (_error_count mc)) (_max_errors mc),
     PyAutoGUI.mk log rest).
Proof.
  destruct mc as [cur cnt mx]. cbn. intros H.
  unfold set_state, _transition_to_state, PyAutoGUI.invoke. cbn.
  rewrite H. destruct cur, s; try discriminate; cbn;
    now destruct (Nat.leb mx (S cnt)).
Qed.

(** X15. Commands for another state than the one held, on a device that
    fails each time: the controller keeps its state, no call is performed,
    and the outcomes are in order: the failures are swallowed as long as
    fewer than [_max_errors] have been counted, and raise
    [MouseControlError] from then on (from the fifth on for a fresh
    controller). *)
Theorem failures_in_a_row (cs : list ControlState) :
  forall (mc : MouseController.t) (log : list PyAutoGUI.call),
    forallb (fun s => negb (ControlState_eqb s (_current_state mc))) cs = true ->
    Device.set_states mc (PyAutoGUI.mk log (repeat true (List.length cs))) cs
    = map (fun k => if Nat.leb (_max_errors mc) k
                    then Raise MouseControlError else Return tt)
          (seq (S (_error_count mc)) (List.length cs))
    /\ Device.steps (map Device.do_set_state cs)
         (mc, PyAutoGUI.mk log (repeat true (List.length cs)))
       = (mk (_current_state mc) (_error_count mc + List.length cs)
             (_max_errors mc),
          PyAutoGUI.mk log []).
Proof.
  induction cs as [|s cs IH]; intros mc log H.
  - cbn. split; [reflexivity|]. destruct mc. cbn. now rewrite Nat.add_0_r.
  - cbn [forallb] in H. apply andb_prop in H as [Hs Hcs].
    apply negb_true_iff in Hs.
    cbn [List.length repeat Device.set_states map Device.steps Device.step seq].
    rewrite (failing_set_state mc s log _ Hs).
    destruct (IH (mk (_current_state mc) (S (_error_count mc)) (_max_errors mc))
                log Hcs) as [IH1 IH2].
    cbn [_current_state _error_count _max_errors] in IH1, IH2.
    rewrite IH1, IH2. split; [reflexivity|].
    f_equal. f_equal. lia.
Qed.

Lemma failures_in_a_row_witness :
  Device.set_states __init__ (PyAutoGUI.mk [] (repeat true 6))
    [LEFT_CLICK; RIGHT_CLICK; LEFT_CLICK; LEFT_CLICK; RIGHT_CLICK; LEFT_CLICK]
  = [Return tt; Return tt; Return tt; Return tt;
     Raise MouseControlError; Raise MouseControlError].
Proof.
  apply (proj1 (failures_in_a_row
                  [LEFT_CLICK; RIGHT_CLICK; LEFT_CLICK; LEFT_CLICK;
                   RIGHT_CLICK; LEFT_CLICK]
                  __init__ [] eq_refl)).
Defined.

End KeyFacts.

(** * The camera manager *)

Module CameraFacts.

Import CameraManager.

Section Frames.

Variable Frame : Type.

Lemma start_capture_outcome (self : t) (w : Cv2 Frame) :
  let '(ok, self', w') := start_capture self w in
  (ok = true ->
   _is_initialized self' = true /\ cap self' = Some true
   /\ is_available self' = true
   /\ exists f rest, reads w = Some (Some f) :: rest /\ reads w' = rest)
  /\ (ok = false -> _is_initialized self = false ->
      _is_initialized self' = false).
Proof.
  unfold start_capture, read.
  destruct (opens w) as [|[[|]|] os]; cbn; try (split; [discriminate|auto]).
  destruct (reads w) as [|[[f|]|] rs]; cbn; split; try discriminate; auto.
  intros _. repeat split. eauto.
Qed.

(** X16. After [release] the manager is silent: [is_available] is false
    and [get_frame] gives nothing without a call to the device. A failed
    [reconnect] leaves the manager in that state; a successful one leaves
    it initialized and available, having read one test frame. And
    [_handle_frame_error] lets the loop go on unless the camera is
    unavailable and cannot be reconnected. *)
Theorem reconnect_outcome (self : t) (w : Cv2 Frame) :
  (is_available (release self) = false
   /\ get_frame (release self) w = (None, w))
  /\ (fst (fst (reconnect self w)) = true ->
      _is_initialized (snd (fst (reconnect self w))) = true
      /\ is_available (snd (fst (reconnect self w))) = true
      /\ exists f rest,
           reads w = Some (Some f) :: rest
           /\ reads (snd (reconnect self w)) = rest)
  /\ (fst (fst (reconnect self w)) = false ->
      _is_initialized (snd (fst (reconnect self w))) = false
      /\ is_available (snd (fst (reconnect self w))) = false
      /\ forall w' : Cv2 Frame,
           get_frame (snd (fst (reconnect self w))) w' = (None, w'))
  /\ (fst (fst (_handle_frame_error self w)) = false <->
      is_available self = false /\ fst (fst (reconnect self w)) = false).
Proof.
  split; [split; reflexivity|].
  unfold reconnect.
  pose proof (start_capture_outcome (release self) w) as H.
  destruct (start_capture (release self) w) as [[ok self'] w'] eqn:E.
  destruct H as [Ht Hf]. cbn [fst snd].
  split; [|split].
  - intros ->. destruct (Ht eq_refl) as (H1 & H2 & H3 & H4). auto.
  - intros ->. specialize (Hf eq_refl eq_refl).
    unfold is_available, get_frame. rewrite Hf. cbn. auto.
  - unfold _handle_frame_error, reconnect.
    destruct (is_available self); cbn.
    + split; [discriminate|]. intros [H _]. discriminate.
    + rewrite E. cbn. split; auto. now intros [_ H].
Qed.

End Frames.

(** A camera that opens but gives no test frame. *)
Lemma reconnect_outcome_witness :
  _is_initialized
    (snd (fst (reconnect (mk (Some true) true)
                 (mkCv2 [Some true] [Some (@None nat)]))))
  = false
  /\ is_available
       (snd (fst (reconnect (mk (Some true) true)
                    (mkCv2 [Some true] [Some (@None nat)]))))
     = false
  /\ forall w' : Cv2 nat,
       get_frame
         (snd (fst (reconnect (mk (Some true) true)
                      (mkCv2 [Some true] [Some (@None nat)])))) w'
       = (None, w').
Proof.
  apply (proj1 (proj2 (proj2 (reconnect_outcome nat (mk (Some true) true)
                                (mkCv2 [Some true] [Some None]))))).
  reflexivity.
Defined.

End CameraFacts.

(** * The shoulder and the wrist are interchangeable *)

Module SymmetryFacts.

Import AngleCalculator.
Open Scope float_scope.

Lemma SFmul_comm (prec emax : Z) (a b : spec_float) :
  SFmul prec emax a b = SFmul prec emax b a.
Proof.
  destruct a as [sa|sa| |sa ma ea], b as [sb|sb| |sb mb eb]; cbn;
    rewrite ?(xorb_comm sa sb), ?(Pos.mul_comm ma mb), ?(Z.add_comm ea eb);
    reflexivity.
Qed.

Lemma mul_comm (a b : float) : a * b = b * a.
Proof.
  apply Prim2SF_inj. rewrite !mul_spec. apply SFmul_comm.
Qed.

Lemma dot_comm (u v : Np.vec3) : Np.dot u v = Np.dot v u.
Proof.
  destruct u as [[u0 u1] u2], v as [[v0 v1] v2]. cbn.
  now rewrite (mul_comm u0 v0), (mul_comm u1 v1), (mul_comm u2 v2).
Qed.

(** X17. In binary64, bit for bit: exchanging the shoulder and the wrist
    changes neither whether [calculate_elbow_angle] raises nor the value it
    passes to [np.arccos], so the result is the same. *)
Theorem calculate_elbow_angle_symmetric (arccos degrees : float -> float)
    (shoulder elbow wrist : Point) :
  calculate_elbow_angle arccos degrees shoulder elbow wrist
  = calculate_elbow_angle arccos degrees wrist elbow shoulder.
Proof.
  unfold calculate_elbow_angle.
  change (forearm_of wrist elbow) with (upper_arm_of wrist elbow).
  change (forearm_of shoulder elbow) with (upper_arm_of shoulder elbow).
  rewrite (orb_comm (Np.norm (upper_arm_of shoulder elbow) =? 0)).
  destruct (_ || _); [reflexivity|].
  now rewrite dot_comm.
Qed.

End SymmetryFacts.

(** * The two builds of the dot product *)

Module BuildFacts.

Import AngleCalculator.
Open Scope float_scope.

Lemma SFfma_comm (a b c : spec_float) : Np.SFfma a b c = Np.SFfma b a c.
Proof.
  destruct a as [sa|sa| |sa ma ea], b as [sb|sb| |sb mb eb];
    try (cbn; rewrite ?(xorb_comm sa sb); reflexivity);
    destruct c as [sc|sc| |sc mc ec]; cbn;
    rewrite ?(xorb_comm sa sb), ?(Pos.mul_comm ma mb), ?(Z.add_comm ea eb);
    reflexivity.
Qed.

Lemma fma_comm (a b c : float) : Np.fma a b c = Np.fma b a c.
Proof. unfold Np.fma. now rewrite SFfma_comm. Qed.

Lemma blas_dot_comm (fused : bool) (u v : Np.vec3) :
  Np.blas_dot fused u v = Np.blas_dot fused v u.
Proof.
  destruct fused; cbn [Np.blas_dot]; [|apply SymmetryFacts.dot_comm].
  destruct u as [[u0 u1] u2], v as [[v0 v1] v2]. cbn.
  now rewrite (fma_comm u0 v0), (fma_comm u1 v1), (fma_comm u2 v2).
Qed.

Lemma symmetric_with (dot : Np.vec3 -> Np.vec3 -> float)
    (arccos degrees : float -> float) (shoulder elbow wrist : Point) :
  (forall u v : Np.vec3, dot u v = dot v u) ->
  calculate_elbow_angle_with dot arccos degrees shoulder elbow wrist
  = calculate_elbow_angle_with dot arccos degrees wrist elbow shoulder.
Proof.
  intros Hdot. unfold calculate_elbow_angle_with.
  change (forearm_of wrist elbow) with (upper_arm_of wrist elbow).
  change (forearm_of shoulder elbow) with (upper_arm_of shoulder elbow).
  rewrite (orb_comm (norm_with dot (upper_arm_of shoulder elbow) =? 0)).
  destruct (_ || _); [reflexivity|].
  now rewrite Hdot.
Qed.

Lemma norm_with_of_zeros (fused : bool) (a b c : float) :
  (a = 0 \/ a = -0) -> (b = 0 \/ b = -0) -> (c = 0 \/ c = -0) ->
  (norm_with (Np.blas_dot fused) (Np.array a b c) =? 0) = true.
Proof.
  intros [-> | ->] [-> | ->] [-> | ->]; destruct fused; reflexivity.
Qed.

Lemma difference_degenerate_with (fused : bool) (p q : Point) :
  Point_finite p = true -> Point_eqb p q = true ->
  (norm_with (Np.blas_dot fused) (upper_arm_of p q) =? 0) = true.
Proof.
  unfold Point_finite, Point_eqb, upper_arm_of.
  intros Hf He.
  apply andb_prop in Hf as [Hf Hz]. apply andb_prop in Hf as [Hx Hy].
  apply andb_prop in He as [He Ez]. apply andb_prop in He as [Ex Ey].
  apply norm_with_of_zeros; now apply FloatFacts.sub_eq_zero.
Qed.

(** X18. With either build of the dot product, fused or not, exchanging
    the shoulder and the wrist changes nothing: the same inputs raise, and
    the same angle is returned, bit for bit. *)
Theorem either_build_is_symmetric (fused : bool)
    (arccos degrees : float -> float) (shoulder elbow wrist : Point) :
  calculate_elbow_angle_with (Np.blas_dot fused) arccos degrees
    shoulder elbow wrist
  = calculate_elbow_angle_with (Np.blas_dot fused) arccos degrees
      wrist elbow shoulder.
Proof. apply symmetric_with, blas_dot_comm. Qed.

(** X19. With either build of the dot product, points with finite
    coordinates of which the shoulder or the wrist equals the elbow raise
    [ValueError]; and so does, with either build, the arm of C3 whose
    squared length underflows. *)
Theorem coincident_points_raise_with (fused : bool)
    (arccos degrees : float -> float) (s e w : Point) :
  (Point_finite s = true -> Point_finite w = true ->
   Point_eqb s e = true \/ Point_eqb w e = true ->
   calculate_elbow_angle_with (Np.blas_dot fused) arccos degrees s e w
   = Raise ValueError)
  /\ calculate_elbow_angle_with (Np.blas_dot fused) arccos degrees
       (mkPoint Samples.tiny 0 0) Samples.origin (mkPoint 1 0 0)
     = Raise ValueError.
Proof.
  split.
  - intros Hs Hw H. unfold calculate_elbow_angle_with.
    change (forearm_of w e) with (upper_arm_of w e).
    destruct H as [H | H].
    + now rewrite (difference_degenerate_with fused s e Hs H).
    + rewrite (difference_degenerate_with fused w e Hw H).
      now rewrite orb_true_r.
  - destruct fused; reflexivity.
Qed.

(** The test suite's coincident shoulder and elbow, with the fused
    build. *)
Lemma coincident_points_raise_with_witness :
  calculate_elbow_angle_with (Np.blas_dot true) (fun v => v) (fun v => v)
    (mkPoint 1 1 1) (mkPoint 1 1 1) (mkPoint 2 2 2) = Raise ValueError.
Proof.
  apply (proj1 (coincident_points_raise_with true (fun v => v) (fun v => v)
                  (mkPoint 1 1 1) (mkPoint 1 1 1) (mkPoint 2 2 2)));
    [reflexivity | reflexivity | left; reflexivity].
Defined.

End BuildFacts.

(** * The value of the elbow angle *)

Module AngleValueFacts.

Import AngleCalculator.
Import Library.
Import Lattice.
Open Scope float_scope.

(** ** The source and its reading with the dot product as a parameter *)

Lemma calculate_elbow_angle_with_eq
    (dot : Np.vec3 -> Np.vec3 -> float) (arccos degrees : float -> float)
    (s e w : Point) :
  calculate_elbow_angle_with dot arccos degrees s e w
  = if zero_length dot s e w then Raise ValueError
    else Return (degrees (arccos (clamped_of dot s e w))).
Proof. reflexivity. Qed.

Lemma calculate_elbow_angle_is_with (arccos degrees : float -> float)
    (s e w : Point) :
  calculate_elbow_angle arccos degrees s e w
  = calculate_elbow_angle_with Np.dot arccos degrees s e w.
Proof. reflexivity. Qed.

(** ** [np.clip] to [[-1, 1]] *)

Lemma eqb_eq_nonzero (a b : float) :
  (a =? b) = true -> (a =? 0) = false -> a = b.
Proof.
  rewrite !eqb_spec. change (Prim2SF 0) with (S754_zero false).
  intros H Hz. apply Prim2SF_inj. revert H Hz.
  destruct (Prim2SF a) as [sa|sa| |sa ma ea],
           (Prim2SF b) as [sb|sb| |sb mb eb];
    try (intros H; cbn in H; discriminate H);
    try (destruct sa; intros H; cbn in H; discriminate H);
    try (destruct sb; intros H; cbn in H; discriminate H).
  - intros _ H. destruct sa; cbn in H; discriminate H.
  - destruct sa, sb; intros H; cbn in H; try discriminate H; reflexivity.
  - intros H _. apply FloatFacts.SFeqb_finite_inv in H as (-> & -> & ->).
    reflexivity.
Qed.

Lemma leb_not_ltb_eqb (a b : float) :
  (a <=? b) = true -> (a <? b) = false -> (a =? b) = true.
Proof.
  rewrite leb_spec, ltb_spec, eqb_spec. unfold SFleb, SFltb, SFeqb.
  now destruct (SFcompare _ _) as [[ | | ]|].
Qed.

Lemma eqb_sym (a b : float) : (a =? b) = (b =? a).
Proof.
  rewrite !eqb_spec. unfold SFeqb.
  destruct (SFcompare (Prim2SF a) (Prim2SF b)) as [c|] eqn:E.
  - rewrite (FloatFacts.SFcompare_antisym _ _ _ E). now destruct c.
  - destruct (SFcompare (Prim2SF b) (Prim2SF a)) as [c|] eqn:E'; [|reflexivity].
    rewrite (FloatFacts.SFcompare_antisym _ _ _ E') in E. discriminate.
Qed.

Lemma clip_nan (v : float) : is_nan v = true -> Np.clip v (-1) 1 = v.
Proof. intros H. unfold Np.clip. cbv zeta. rewrite H. cbn. now rewrite H. Qed.

Lemma clip_below (v : float) : (v <? -1) = true -> Np.clip v (-1) 1 = -1.
Proof.
  intros H. unfold Np.clip. cbv zeta.
  destruct (FloatOrder.ltb_not_nan _ _ H) as [Hn _]. rewrite Hn.
  rewrite (FloatFacts.leb_ltb_false _ _ (FloatOrder.ltb_leb _ _ H)).
  reflexivity.
Qed.

Lemma clip_above (v : float) : (1 <? v) = true -> Np.clip v (-1) 1 = 1.
Proof.
  intros H. unfold Np.clip. cbv zeta.
  destruct (FloatOrder.ltb_not_nan _ _ H) as [_ Hn]. rewrite Hn.
  assert (H1 : (-1 <? v) = true)
    by (apply (FloatOrder.ltb_trans _ 1); [reflexivity | exact H]).
  rewrite H1. cbn [orb]. rewrite Hn.
  rewrite (FloatFacts.leb_ltb_false _ _ (FloatOrder.ltb_leb _ _ H)).
  reflexivity.
Qed.

Lemma clip_inside (v : float) :
  (-1 <=? v) = true -> (v <=? 1) = true -> Np.clip v (-1) 1 = v.
Proof.
  intros Hlo Hhi. unfold Np.clip. cbv zeta.
  destruct (FloatOrder.leb_not_nan _ _ Hhi) as [Hn _]. rewrite Hn. cbn [orb].
  destruct (-1 <? v) eqn:E.
  - rewrite Hn. cbn [orb]. destruct (v <? 1) eqn:E1; [reflexivity|].
    symmetry. apply eqb_eq_nonzero.
    + exact (leb_not_ltb_eqb _ _ Hhi E1).
    + destruct (v =? 0) eqn:Ez; [|reflexivity].
      rewrite (FloatFacts.ltb_eqb_l _ _ 1 Ez) in E1. discriminate E1.
  - change (is_nan (-1) || (-1 <? 1)) with true. cbv iota.
    apply eqb_eq_nonzero; [|reflexivity].
    exact (leb_not_ltb_eqb _ _ Hlo E).
Qed.

Lemma clip_range (v : float) :
  is_nan (Np.clip v (-1) 1) = false ->
  (-1 <=? Np.clip v (-1) 1) = true /\ (Np.clip v (-1) 1 <=? 1) = true.
Proof.
  destruct (is_nan v) eqn:Hn.
  - rewrite (clip_nan v Hn), Hn. discriminate.
  - intros _. unfold Np.clip. cbv zeta. rewrite Hn. cbn [orb].
    destruct (-1 <? v) eqn:E.
    + rewrite Hn. cbn [orb]. destruct (v <? 1) eqn:E1.
      * split; now apply FloatOrder.ltb_leb.
      * split; reflexivity.
    + change (is_nan (-1) || (-1 <? 1)) with true. cbv iota.
      split; reflexivity.
Qed.

(** ** The stand-in for the library *)

Lemma quadrant_accurate : accurate arccos_by_quadrant degrees_done.
Proof.
  unfold accurate, arccos_by_quadrant, degrees_done.
  split; [|split].
  - intros c _ _. destruct (c <? -0.5); [reflexivity|].
    destruct (c <? 0.5); reflexivity.
  - intros c Hlo Hhi.
    assert (H1 : (c <? -0.5) = false).
    { apply FloatFacts.leb_ltb_false.
      apply FloatOrder.ltb_leb,
        (FloatOrder.ltb_leb_trans _ (- slack)); [reflexivity | exact Hlo]. }
    assert (H2 : (c <? 0.5) = true)
      by (apply (FloatOrder.leb_ltb_trans _ slack); [exact Hhi | reflexivity]).
    rewrite H1, H2. reflexivity.
  - intros c _ Hhi.
    assert (H1 : (c <? -0.5) = true)
      by (apply (FloatOrder.leb_ltb_trans _ (-1 + slack));
          [exact Hhi | reflexivity]).
    rewrite H1. reflexivity.
Qed.

(** ** From the clamped dot product to the angle *)

Section WithLibrary.

Variable arccos : float -> float.
Variable degrees : float -> float.
Hypothesis library : accurate arccos degrees.

Lemma returns_near_90 (s e w : Point) :
  cosine_near 0 s e w = true ->
  forall fused : bool,
  exists angle : float,
    calculate_elbow_angle_with (Np.blas_dot fused) arccos degrees s e w
    = Return angle
    /\ close_to 90 angle = true.
Proof.
  intros H fused. unfold cosine_near in H. cbn [forallb] in H.
  rewrite andb_true_r in H. apply andb_prop in H as [Hf Ht].
  assert (Hc : negb (zero_length (Np.blas_dot fused) s e w)
               && (0 - slack <=? clamped_of (Np.blas_dot fused) s e w)
               && (clamped_of (Np.blas_dot fused) s e w <=? 0 + slack) = true)
    by (destruct fused; assumption).
  apply andb_prop in Hc as [Hc Hhi]. apply andb_prop in Hc as [Hz Hlo].
  apply negb_true_iff in Hz.
  rewrite calculate_elbow_angle_with_eq, Hz.
  eexists. split; [reflexivity|].
  apply (proj1 (proj2 library)); assumption.
Qed.

Lemma returns_near_180 (s e w : Point) :
  cosine_near (-1) s e w = true ->
  forall fused : bool,
  exists angle : float,
    calculate_elbow_angle_with (Np.blas_dot fused) arccos degrees s e w
    = Return angle
    /\ close_to 180 angle = true.
Proof.
  intros H fused. unfold cosine_near in H. cbn [forallb] in H.
  rewrite andb_true_r in H. apply andb_prop in H as [Hf Ht].
  assert (Hc : negb (zero_length (Np.blas_dot fused) s e w)
               && (-1 - slack <=? clamped_of (Np.blas_dot fused) s e w)
               && (clamped_of (Np.blas_dot fused) s e w <=? -1 + slack) = true)
    by (destruct fused; assumption).
  apply andb_prop in Hc as [Hc Hhi]. apply andb_prop in Hc as [Hz Hlo].
  apply negb_true_iff in Hz.
  rewrite calculate_elbow_angle_with_eq, Hz.
  eexists. split; [reflexivity|].
  apply (proj2 (proj2 library)); [|exact Hhi].
  apply clip_range. exact (proj1 (FloatOrder.leb_not_nan _ _ Hhi)).
Qed.

End WithLibrary.

(** ** Enumerations *)

Lemma range_In (lo k : Z) (n : nat) :
  (lo <= k < lo + Z.of_nat n)%Z -> In k (range lo n).
Proof.
  intros H. unfold range. apply in_map_iff.
  exists (Z.to_nat (k - lo)). split; [lia|].
  apply in_seq. lia.
Qed.

Lemma coordinates_In (n a : Z) :
  (Z.abs a <=? n)%Z = true -> In a (coordinates n).
Proof.
  intros H. apply Z.leb_le in H. apply range_In. lia.
Qed.

Lemma points_In (n : Z) (p : zpoint) :
  within n p = true -> In p (points n).
Proof.
  destruct p as [[a b] c]. unfold within, points. intros H.
  apply andb_prop in H as [H Hc]. apply andb_prop in H as [Ha Hb].
  apply in_flat_map. exists a. split; [now apply coordinates_In|].
  apply in_flat_map. exists b. split; [now apply coordinates_In|].
  apply in_map. now apply coordinates_In.
Qed.

(** ** The evaluations *)

Lemma right_angle_scaled :
  forallb (fun k : Z =>
             cosine_near 0 (scaled k (mkPoint 0 0 0)) (scaled k (mkPoint 1 0 0))
                         (scaled k (mkPoint 1 1 0)))
          (range (-500) 1001) = true.
Proof. vm_compute. reflexivity. Qed.

Lemma straight_arm_scaled :
  forallb (fun k : Z =>
             cosine_near (-1) (scaled k (mkPoint 0 0 0))
                         (scaled k (mkPoint 1 0 0)) (scaled k (mkPoint 2 0 0)))
          (range (-500) 1001) = true.
Proof. vm_compute. reflexivity. Qed.

Lemma right_angles_of_the_lattice :
  forallb (fun e : zpoint =>
    forallb (fun s : zpoint =>
      forallb (fun w : zpoint =>
        if right_angle s e w
        then cosine_near 0 (point_of s) (point_of e) (point_of w)
        else true)
      (points 1)) (points 1)) (points 1) = true.
Proof. vm_compute. reflexivity. Qed.

Lemma straight_arms_of_the_lattice :
  forallb (fun e : zpoint =>
    forallb (fun s : zpoint =>
      forallb (fun w : zpoint =>
        if straight s e w
        then cosine_near (-1) (point_of s) (point_of e) (point_of w)
        else true)
      (points 2)) (points 2)) (points 2) = true.
Proof. vm_compute. reflexivity. Qed.

(** The clamp is at work on the lattice already: between the shoulder at
    [(3, 3, 0)] and the wrist at [(-3, -3, 0)], with the elbow at the
    origin, the dot product of the normalized vectors is below [-1]. *)
Lemma clamp_is_needed :
  (dot_product_of Np.dot (mkPoint 3 3 0) (mkPoint 0 0 0) (mkPoint (-3) (-3) 0)
   <? -1) = true
  /\ clamped_of Np.dot (mkPoint 3 3 0) (mkPoint 0 0 0) (mkPoint (-3) (-3) 0)
     = -1.
Proof. split; reflexivity. Qed.




End AngleValueFacts.
